(** * STU sensitivity analysis: the per-floorplan rent calculation

    A shallow embedding of the rent calculation that [frontend/src/App.tsx]
    performs for every floorplan of the selected property, once inside
    [exportToPDF] (the body of the PDF table) and once inside the JSX of
    [App] (the on-screen "Floorplan Breakdown" table), together with the
    record types of [frontend/src/types.ts].

    JavaScript numbers are kept abstract: the calculation is written once
    over an interface [Number] that offers the operators the source uses
    ([+], [-], [*], [/], [<], [Math.max], [===] and integer literals).  Two
    instances are given.  [Q_Number] interprets the operators in exact
    rational arithmetic; the algebraic statements (identities between
    formulas, signs) are proved there.  [F64_Number] interprets them as
    IEEE 754 binary64, which is what a JavaScript engine evaluates.  The
    statements that only follow the control flow are proved for every
    instance.  Of the algebraic ones, those that use no more than
    [x * 1], [x + 0] and [x * 0] are proved again for binary64 from the
    specification of the primitive operations; the two that need
    distributivity hold up to rounding only, which is shown on concrete
    rents, and what is said of [x * 0] needs a finite [x]: a gross rent
    that has overflowed to Infinity gives NaN.

    The aggregation over the floorplans of a property is done by the
    backend, which is not part of the sources; it is modelled from the
    specification ([calculateScenarioResults]). *)

From Stdlib Require Import ZArith QArith Qminmax Lqa Lia.
From Stdlib Require Import Bool List String DecimalString.
From Stdlib Require Import Floats.
Import ListNotations.

Set Implicit Arguments.

(* ------------------------------------------------------------------ *)
(** ** Numbers *)

Declare Scope js_scope.
Delimit Scope js_scope with js.

(** The operators of the source on values of type [number]. *)
Class Number (num : Type) : Type := {
  lit      : Z -> num;            (* an integer literal: 0, 1, 12, 100 *)
  jadd     : num -> num -> num;   (* a + b *)
  jsub     : num -> num -> num;   (* a - b *)
  jmul     : num -> num -> num;   (* a * b *)
  jdiv     : num -> num -> num;   (* a / b *)
  Math_max : num -> num -> num;   (* Math.max(a, b) *)
  strict_eq : num -> num -> bool; (* a === b *)
  jlt      : num -> num -> bool   (* a < b *)
}.

Arguments lit {num _} _%_Z.

Infix "+" := jadd : js_scope.
Infix "-" := jsub : js_scope.
Infix "*" := jmul : js_scope.
Infix "/" := jdiv : js_scope.

(** Exact arithmetic.  [Qdiv] by zero is 0, where JavaScript gives an
    infinity or NaN; the calculation divides by the literals 100 and 12
    only, and the aggregation tests its denominators first. *)
#[export] Instance Q_Number : Number Q := {|
  lit := inject_Z;
  jadd := Qplus;
  jsub := Qminus;
  jmul := Qmult;
  jdiv := Qdiv;
  Math_max := Qmax;
  strict_eq := Qeq_bool;
  jlt := fun a b => negb (Qle_bool b a)
|}.

(** [Math.max] on two binary64 values: NaN if either argument is NaN,
    and +0 counts as larger than -0. *)
Definition f64_Math_max (a b : float) : float :=
  if (PrimFloat.is_nan a || PrimFloat.is_nan b)%bool then PrimFloat.nan
  else if PrimFloat.ltb a b then b
  else if PrimFloat.ltb b a then a
  else if (PrimFloat.is_zero a && PrimFloat.get_sign a)%bool then b
  else a.

Definition f64_lit (z : Z) : float :=
  if (z <? 0)%Z then PrimFloat.opp (PrimFloat.of_uint63 (Uint63.of_Z (- z)))
  else PrimFloat.of_uint63 (Uint63.of_Z z).

(** IEEE 754 binary64, round to nearest even. *)
#[export] Instance F64_Number : Number float := {|
  lit := f64_lit;
  jadd := PrimFloat.add;
  jsub := PrimFloat.sub;
  jmul := PrimFloat.mul;
  jdiv := PrimFloat.div;
  Math_max := f64_Math_max;
  strict_eq := PrimFloat.eqb;
  jlt := PrimFloat.ltb
|}.

(** What the floor [Math.max(0, x)] is used for: its value is never below
    zero.  Stated with the comparison of the interface, so that for
    binary64 it covers NaN (which is below nothing) as well. *)
Class FlooredMax (num : Type) {N : Number num} : Prop :=
  Math_max_floor : forall x : num, jlt (Math_max (lit 0) x) (lit 0) = false.

Arguments FlooredMax num {N}.

(* ------------------------------------------------------------------ *)
(** ** Data model ([types.ts])

    The fields keep their names, except [id] and [name], which two
    interfaces share: [fp_id], [fp_name], [sc_id], [sc_name]. *)

Record Floorplan (num : Type) : Type := {
  fp_id          : string;
  property_id : string;
  fp_name        : string;
  unit_type      : string;
  unit_count     : num;
  square_footage : num;
  floor_level    : option string;
  view_type      : option string;
  base_rent      : num;
  amenity_rent   : num
}.

Record ScenarioResults (num : Type) : Type := {
  total_annual_revenue : num;
  avg_rent_per_unit    : num;
  revenue_per_sqft     : num;
  weighted_avg_rent    : num
}.

(** [concession_type] is declared as a union of four string literals; at
    run time it is whatever string the backend sent, and the code compares
    it with [===]. *)
Record Scenario (num : Type) : Type := {
  sc_id                   : string;
  analysis_id             : string;
  sc_name                 : string;
  base_rent_pct_adj       : num;
  base_rent_dollar_adj    : num;
  amenity_rent_pct_adj    : num;
  amenity_rent_dollar_adj : num;
  concession_type         : string;
  concession_value        : num;
  results                 : option (ScenarioResults num);
  created_at              : string
}.

(** The five locals that each row of the breakdown computes. *)
Record Figures (num : Type) : Type := {
  adjustedBase     : num;
  adjustedAmenity  : num;
  grossRent        : num;
  concessionAmount : num;
  netEffective     : num
}.

(** The error kinds the specification names. *)
Inductive ErrorKind : Type :=
  | InvalidInput
  | DivisionUndefined
  | MismatchedInventory.

(** How the evaluation of a piece of code ends: normally with a value, or
    abruptly with a thrown error. *)
Inductive Completion (A : Type) : Type :=
  | Normal (a : A)
  | Throw (e : ErrorKind).

Arguments Throw {A} e.

(** The two places the calculation is written in. *)
Inductive Copy : Type :=
  | PDF      (* exportToPDF *)
  | Table.   (* the table of App *)

Unset Implicit Arguments.

(* ------------------------------------------------------------------ *)
(** ** The calculation *)

Section Calculation.

Context {num : Type} {N : Number num}.
Local Open Scope js_scope.
Local Open Scope string_scope.

(** [exportToPDF], the callback of [selectedProperty.floorplans.map]
    (lines 211-228).  The two [let] bindings are initialised and then
    overwritten by at most one branch of the [if]-chain. *)
Definition exportToPDF_row (fp : Floorplan num) (currentScenario : Scenario num)
  : Figures num :=
  let adjustedBase :=
    (base_rent fp * (lit 1 + base_rent_pct_adj currentScenario))
    + base_rent_dollar_adj currentScenario in
  let adjustedAmenity :=
    (amenity_rent fp * (lit 1 + amenity_rent_pct_adj currentScenario))
    + amenity_rent_dollar_adj currentScenario in
  let grossRent := adjustedBase + adjustedAmenity in
  let concessionAmount := lit 0 in
  let netEffective := grossRent in
  let '(concessionAmount, netEffective) :=
    if (concession_type currentScenario =? "percentage")%string then
      let concessionAmount :=
        grossRent * (concession_value currentScenario / lit 100) in
      let netEffective := grossRent - concessionAmount in
      (concessionAmount, netEffective)
    else if (concession_type currentScenario =? "dollar")%string then
      let concessionAmount := concession_value currentScenario in
      let netEffective := Math_max (lit 0) (grossRent - concessionAmount) in
      (concessionAmount, netEffective)
    else if (concession_type currentScenario =? "free_months")%string then
      let concessionAmount :=
        grossRent * (concession_value currentScenario / lit 12) in
      let netEffective :=
        grossRent * ((lit 12 - concession_value currentScenario) / lit 12) in
      (concessionAmount, netEffective)
    else (concessionAmount, netEffective) in
  {| adjustedBase := adjustedBase;
     adjustedAmenity := adjustedAmenity;
     grossRent := grossRent;
     concessionAmount := concessionAmount;
     netEffective := netEffective |}.

(** [App], the callback of [selectedProperty.floorplans.map] in the body
    of the on-screen table, first statement (lines 682-684): the scenario
    of the active tab, or the copy being edited when it is the same
    scenario.  [editingScenario?.id] is [undefined] for [null], which is
    [===] to no id. *)
Definition App_currentScenario
  (editingScenario : option (Scenario num)) (active : Scenario num)
  : Scenario num :=
  match editingScenario with
  | Some e => if (sc_id e =? sc_id active)%string then e else active
  | None => active
  end.

(** [App], the rest of the same callback (lines 686-702). *)
Definition App_row (fp : Floorplan num) (currentScenario : Scenario num)
  : Figures num :=
  let adjustedBase :=
    (base_rent fp * (lit 1 + base_rent_pct_adj currentScenario))
    + base_rent_dollar_adj currentScenario in
  let adjustedAmenity :=
    (amenity_rent fp * (lit 1 + amenity_rent_pct_adj currentScenario))
    + amenity_rent_dollar_adj currentScenario in
  let grossRent := adjustedBase + adjustedAmenity in
  let concessionAmount := lit 0 in
  let netEffective := grossRent in
  let '(concessionAmount, netEffective) :=
    if (concession_type currentScenario =? "percentage")%string then
      let concessionAmount :=
        grossRent * (concession_value currentScenario / lit 100) in
      let netEffective := grossRent - concessionAmount in
      (concessionAmount, netEffective)
    else if (concession_type currentScenario =? "dollar")%string then
      let concessionAmount := concession_value currentScenario in
      let netEffective := Math_max (lit 0) (grossRent - concessionAmount) in
      (concessionAmount, netEffective)
    else if (concession_type currentScenario =? "free_months")%string then
      let concessionAmount :=
        grossRent * (concession_value currentScenario / lit 12) in
      let netEffective :=
        grossRent * ((lit 12 - concession_value currentScenario) / lit 12) in
      (concessionAmount, netEffective)
    else (concessionAmount, netEffective) in
  {| adjustedBase := adjustedBase;
     adjustedAmenity := adjustedAmenity;
     grossRent := grossRent;
     concessionAmount := concessionAmount;
     netEffective := netEffective |}.

(** [App], the footer of the table (line 728):
    [floorplans.reduce((sum, fp) => sum + fp.unit_count, 0)]. *)
Definition App_totalUnits (floorplans : list (Floorplan num)) : num :=
  fold_left (fun sum fp => sum + unit_count fp) floorplans (lit 0).

(** The calculation of either copy. *)
Definition row_of (c : Copy) : Floorplan num -> Scenario num -> Figures num :=
  match c with
  | PDF => exportToPDF_row
  | Table => App_row
  end.

(** The calculation as a call that either returns or fails, the shape in
    which section 6 of the specification names it.  The figures are
    computed by declarations, assignments and one conditional, over
    arithmetic on numbers and [===] on strings: nothing is thrown and no
    field of the floorplan is tested, so the evaluation completes normally
    with the figures.  (The calls that follow in the callbacks format the
    figures, with [toLocaleString] and [Intl.NumberFormat], which accept
    every number.) *)
Definition calculateFloorplanFigures
  (floorplan : Floorplan num) (scenarioParams : Scenario num)
  : Completion (Figures num) :=
  Normal (App_row floorplan scenarioParams).

(** Sequencing of evaluations that may throw. *)
Definition bind {A B : Type} (c : Completion A) (k : A -> Completion B)
  : Completion B :=
  match c with
  | Normal a => k a
  | Throw e => Throw e
  end.

Fixpoint mapM {A B : Type} (f : A -> Completion B) (l : list A)
  : Completion (list B) :=
  match l with
  | [] => Normal []
  | a :: l' =>
      bind (f a) (fun b => bind (mapM f l') (fun bs => Normal (b :: bs)))
  end.

(** Modelled from the spec: [calculateScenarioResults], the Scenario
    Aggregator of section 4.2.  The frontend only fetches its result
    ([scenarioApi.calculate] requests [/scenarios/:id/calculate]); the
    backend that computes it is not among the sources.  Following the
    specification: the calculator is invoked for each floorplan, the sums
    are weighted by [unit_count], [weighted_avg_rent] is the same figure
    as [avg_rent_per_unit], and a zero denominator gives 0 (the policy of
    section 7) instead of an error or a non-finite quotient. *)
Definition calculateScenarioResults
  (floorplans : list (Floorplan num)) (scenarioParams : Scenario num)
  : Completion (ScenarioResults num) :=
  bind
    (mapM (fun fp =>
             bind (calculateFloorplanFigures fp scenarioParams)
                  (fun figures => Normal (fp, figures)))
          floorplans)
    (fun rows =>
       let revenue :=
         fold_left (fun sum '(fp, figures) =>
                      sum + netEffective figures * unit_count fp)
                   rows (lit 0) in
       let units :=
         fold_left (fun sum '(fp, _) => sum + unit_count fp) rows (lit 0) in
       let sqft :=
         fold_left (fun sum '(fp, _) =>
                      sum + square_footage fp * unit_count fp)
                   rows (lit 0) in
       let avg :=
         if strict_eq units (lit 0) then lit 0 else revenue / units in
       Normal
         {| total_annual_revenue := revenue * lit 12;
            avg_rent_per_unit := avg;
            revenue_per_sqft :=
              if strict_eq sqft (lit 0) then lit 0 else revenue / sqft;
            weighted_avg_rent := avg |}).

(** A floorplan and a scenario with the given numbers; the identities and
    names play no part in the calculation. *)
Definition floorplan_of (units sqft base amenity : num) : Floorplan num :=
  {| fp_id := "fp-1"; property_id := "p-1"; fp_name := "A1";
     unit_type := "1BR"; unit_count := units; square_footage := sqft;
     floor_level := None; view_type := None;
     base_rent := base; amenity_rent := amenity |}.

Definition scenario_of (base_pct base_dollar amenity_pct amenity_dollar : num)
  (ctype : string) (cvalue : num) : Scenario num :=
  {| sc_id := "s-1"; analysis_id := "a-1"; sc_name := "Scenario";
     base_rent_pct_adj := base_pct; base_rent_dollar_adj := base_dollar;
     amenity_rent_pct_adj := amenity_pct;
     amenity_rent_dollar_adj := amenity_dollar;
     concession_type := ctype; concession_value := cvalue;
     results := None; created_at := "2025-01-01T00:00:00Z" |}.

(** The scenario [s] with another concession. *)
Definition with_concession (s : Scenario num) (ctype : string) (cvalue : num)
  : Scenario num :=
  {| sc_id := sc_id s; analysis_id := analysis_id s; sc_name := sc_name s;
     base_rent_pct_adj := base_rent_pct_adj s;
     base_rent_dollar_adj := base_rent_dollar_adj s;
     amenity_rent_pct_adj := amenity_rent_pct_adj s;
     amenity_rent_dollar_adj := amenity_rent_dollar_adj s;
     concession_type := ctype; concession_value := cvalue;
     results := results s; created_at := created_at s |}.

End Calculation.

(** Equality of figures as rational numbers, field by field. *)
Definition figures_eq (f g : Figures Q) : Prop :=
  (adjustedBase f == adjustedBase g
   /\ adjustedAmenity f == adjustedAmenity g
   /\ grossRent f == grossRent g
   /\ concessionAmount f == concessionAmount g
   /\ netEffective f == netEffective g)%Q.

(* ------------------------------------------------------------------ *)
(** ** Sample inputs *)

(** The floorplan of the worked examples of the specification: 10 units of
    750 square feet, base rent 1000, amenity rent 100. *)
Definition fp_example : Floorplan Q := floorplan_of 10 750 1000 100.

(** A unit type let for nothing. *)
Definition fp_rent_free : Floorplan Q := floorplan_of 10 750 0 0.

(** A record with a negative count, no area and negative rents. *)
Definition fp_invalid : Floorplan Q := floorplan_of (-1) 0 (-1000) (-100).


Definition sc_identity : Scenario Q := scenario_of 0 0 0 0 "none" 0.

(** +5% on the base rent and a concession of 50 dollars (first worked
    example). *)
Definition sc_dollar_50 : Scenario Q :=
  scenario_of (5 # 100) 0 0 0 "dollar" 50.

Definition sc_dollar_5000 : Scenario Q := scenario_of 0 0 0 0 "dollar" 5000.

Definition sc_percentage_150 : Scenario Q :=
  scenario_of 0 0 0 0 "percentage" 150.

(** One free month (second worked example), none, twelve and thirteen. *)
Definition sc_free_months (months : Q) : Scenario Q :=
  scenario_of 0 0 0 0 "free_months" months.

(** A concession type outside the declared union. *)
Definition sc_undeclared : Scenario Q := scenario_of 0 0 0 0 "monthly" 3.

(** The same in binary64; 0x1.999999999999ap-5 is the number that the
    literal 0.05 denotes. *)
Definition fp_example64 : Floorplan float :=
  floorplan_of 10%float 750%float 1000%float 100%float.

Definition fp_650 : Floorplan float :=
  floorplan_of 10%float 750%float 650%float 0%float.

Definition fp_500 : Floorplan float :=
  floorplan_of 10%float 750%float 500%float 0%float.

Definition sc_dollar_50_64 : Scenario float :=
  scenario_of 0x1.999999999999ap-5%float 0%float 0%float 0%float
              "dollar" 50%float.

Definition sc_free_month64 : Scenario float :=
  scenario_of 0%float 0%float 0%float 0%float "free_months" 1%float.

Definition sc_percentage_7 : Scenario float :=
  scenario_of 0%float 0%float 0%float 0%float "percentage" 7%float.

(* ------------------------------------------------------------------ *)
(** ** The rest of [App.tsx] and [api.ts]

    The state transitions of the component (the analysis filter, the
    scenario list after a save, the edit form), the cells of its tables
    and of the PDF, the chart data, the PDF file name, and the batch
    calculation of [api.ts].  The formatting functions of the platform
    ([Intl.NumberFormat], [toLocaleString], [toFixed], the conversion of a
    number in a template literal) are an interface, [Formatting]; what is
    proved holds for every implementation of it. *)

Set Implicit Arguments.

Record Property (num : Type) : Type := {
  pr_id         : string;
  pr_name       : string;
  address       : string;
  total_units   : num;
  pr_created_at : string;
  pr_updated_at : string;
  pr_floorplans : list (Floorplan num)
}.

Record Analysis (num : Type) : Type := {
  an_id              : string;
  an_property_id     : string;
  an_name            : string;
  description        : option string;
  occupancy_rate     : num;
  an_created_at      : string;
  an_updated_at      : string;
  parent_analysis_id : option string;
  an_scenarios       : list (Scenario num)
}.

(** A cell of a table: a string, or a number handed over as it is. *)
Inductive Cell (num : Type) : Type :=
  | Text (s : string)
  | Num (n : num).

Arguments Text {num} s.

(** A [<td>]: its [className] attribute, when it has one, and its
    content. *)
Record Td (num : Type) : Type := {
  className : option string;
  content   : Cell num
}.

(** How a promise ends.  The reason of a rejection is not kept. *)
Inductive Settled (A : Type) : Type :=
  | Fulfilled (a : A)
  | Rejected.

Arguments Rejected {A}.

(** What a call of [exportToPDF] does. *)
Inductive ExportOutcome (num : Type) : Type :=
  | NotExported       (* the early [return] *)
  | TypeErrorThrown   (* [currentScenario.name] with [currentScenario] undefined *)
  | Exported (floorplanData scenarioData : list (list (Cell num))).

Arguments NotExported {num}.
Arguments TypeErrorThrown {num}.

Unset Implicit Arguments.

(** The number formatting of the platform. *)
Class Formatting (num : Type) : Type := {
  Intl_NumberFormat_format : num -> string; (* USD, no fraction digits *)
  Number_toLocaleString    : num -> string; (* value.toLocaleString() *)
  Number_toFixed_1         : num -> string; (* value.toFixed(1) *)
  Number_toString          : num -> string  (* `${value}` *)
}.

(** UTF-16 code units of a string literal of the source. *)
Definition units (s : string) : list N :=
  map Ascii.N_of_ascii (list_ascii_of_string s).

(** The code units that [\s] matches: the white space and the line
    terminators of ECMAScript. *)
Definition is_whitespace (c : N) : bool :=
  ((9 <=? c) && (c <=? 13)
   || (c =? 32) || (c =? 160) || (c =? 5760)
   || (8192 <=? c) && (c <=? 8202)
   || (c =? 8232) || (c =? 8233) || (c =? 8239) || (c =? 8287)
   || (c =? 12288) || (c =? 65279))%N.

(** [name.replace(/\s+/g, '_')]: every maximal run of white space becomes
    one underscore.  [in_run] says that the previous code unit was white
    space, whose run has its underscore already. *)
Fixpoint replace_whitespace_from (in_run : bool) (name : list N) : list N :=
  match name with
  | [] => []
  | c :: rest =>
      if is_whitespace c then
        if in_run then replace_whitespace_from true rest
        else 95%N :: replace_whitespace_from true rest
      else c :: replace_whitespace_from false rest
  end.

Definition replace_whitespace (name : list N) : list N :=
  replace_whitespace_from false name.

(** [exportToPDF], line 324; [name] holds the code units of
    [selectedProperty.name] and [date] those of
    [new Date().toISOString().split('T')[0]]. *)
Definition exportToPDF_filename (name date : list N) : list N :=
  units "STU_Analysis_" ++ replace_whitespace name
  ++ units "_" ++ date ++ units ".pdf".

(** [Promise.all]: fulfilled with all the values, in the order of the
    promises, when every promise is fulfilled; rejected otherwise. *)
Fixpoint Promise_all {A : Type} (promises : list (Settled A))
  : Settled (list A) :=
  match promises with
  | [] => Fulfilled []
  | Fulfilled a :: rest =>
      match Promise_all rest with
      | Fulfilled values => Fulfilled (a :: values)
      | Rejected => Rejected
      end
  | Rejected :: _ => Rejected
  end.

Section Component.

Context {num : Type} {N : Number num} {Fm : Formatting num}.
Local Open Scope js_scope.
Local Open Scope string_scope.

(** [api.ts], [calculateAllScenarios]; [calculate] is what
    [scenarioApi.calculate] answers for an id. *)
Definition calculateAllScenarios
  (calculate : string -> Settled (Scenario num)) (analysis : Analysis num)
  : Settled (list (Scenario num)) :=
  Promise_all (map (fun scenario => calculate (sc_id scenario))
                   (an_scenarios analysis)).

(** [App], the second effect (lines 49-64): the new values of
    [filteredAnalyses] and [selectedAnalysis]. *)
Definition App_filterEffect
  (selectedProperty : option (Property num)) (analyses : list (Analysis num))
  (selectedAnalysis : option (Analysis num))
  : list (Analysis num) * option (Analysis num) :=
  match selectedProperty with
  | Some p =>
      let filtered :=
        filter (fun a => (an_property_id a =? pr_id p)%string) analyses in
      (filtered,
       match filtered with
       | a :: _ => Some a
       | [] => None
       end)
  | None =>
      (analyses,
       match analyses with
       | a :: _ => Some a
       | [] => selectedAnalysis
       end)
  end.

(** [calculateScenarios] (lines 94-106): the new value of [scenarios].  A
    rejection is caught and logged, and leaves the state as it is. *)
Definition App_calculateScenarios
  (calculate : string -> Settled (Scenario num))
  (selectedAnalysis : option (Analysis num)) (scenarios : list (Scenario num))
  : list (Scenario num) :=
  match selectedAnalysis with
  | None => scenarios
  | Some analysis =>
      match calculateAllScenarios calculate analysis with
      | Fulfilled calculated => calculated
      | Rejected => scenarios
      end
  end.

(** [updateScenario] and [resetScenario], the state update of lines 125
    and 153: [prev.map(s => s.id === calculated.id ? calculated : s)]. *)
Definition App_replaceScenario
  (calculated : Scenario num) (prev : list (Scenario num))
  : list (Scenario num) :=
  map (fun s => if (sc_id s =? sc_id calculated)%string then calculated else s)
      prev.

(** ToBoolean of a number: false for +0, -0 and NaN. *)
Definition falsy (x : num) : bool :=
  (strict_eq x (lit 0) || negb (strict_eq x x))%bool.

(** [x || 0]. *)
Definition or_zero (x : num) : num := if falsy x then lit 0 else x.

(** [formatCurrency] (lines 328-335). *)
Definition formatCurrency (value : num) : string :=
  Intl_NumberFormat_format value.

(** [formatPercent] (lines 337-339). *)
Definition formatPercent (value : num) : string :=
  Number_toFixed_1 (value * lit 100) ++ "%".

(** [chartData] (lines 342-353): the labels and the one data set. *)
Definition App_chartData_labels (scenarios : list (Scenario num))
  : list string :=
  map (fun s => sc_name s) scenarios.

Definition App_chartData_data (scenarios : list (Scenario num)) : list num :=
  map (fun s =>
         match results s with
         | Some r => or_zero (total_annual_revenue r)
         | None => lit 0
         end)
      scenarios.

(** [exportToPDF], the row that the callback of lines 211-243 returns. *)
Definition exportToPDF_floorplanRow
  (fp : Floorplan num) (currentScenario : Scenario num) : list (Cell num) :=
  let figures := exportToPDF_row fp currentScenario in
  [ Text (fp_name fp);
    Text (unit_type fp);
    Num (unit_count fp);
    Text (Number_toLocaleString (square_footage fp));
    Text (formatCurrency (base_rent fp));
    Text (formatCurrency (adjustedBase figures));
    Text (formatCurrency (amenity_rent fp));
    Text (formatCurrency (adjustedAmenity figures));
    Text (formatCurrency (grossRent figures));
    Text (if jlt (lit 0) (concessionAmount figures)
          then "-" ++ formatCurrency (concessionAmount figures)
          else "-");
    Text (formatCurrency (netEffective figures)) ].

(** [App], the [<tr>] that the callback of lines 681-725 returns. *)
Definition App_floorplanTr
  (fp : Floorplan num) (currentScenario : Scenario num) : list (Td num) :=
  let figures := App_row fp currentScenario in
  [ {| className := None; content := Text (fp_name fp) |};
    {| className := None; content := Text (unit_type fp) |};
    {| className := None; content := Num (unit_count fp) |};
    {| className := None;
       content := Text (Number_toLocaleString (square_footage fp)) |};
    {| className := None; content := Text (formatCurrency (base_rent fp)) |};
    {| className :=
         Some (if negb (strict_eq (adjustedBase figures) (base_rent fp))
               then "adjusted" else "");
       content := Text (formatCurrency (adjustedBase figures)) |};
    {| className := None;
       content := Text (formatCurrency (amenity_rent fp)) |};
    {| className :=
         Some (if negb (strict_eq (adjustedAmenity figures) (amenity_rent fp))
               then "adjusted" else "");
       content := Text (formatCurrency (adjustedAmenity figures)) |};
    {| className := Some "gross-rent";
       content := Text (formatCurrency (grossRent figures)) |};
    {| className :=
         Some (if jlt (lit 0) (concessionAmount figures)
               then "concession" else "");
       content :=
         Text (if jlt (lit 0) (concessionAmount figures)
               then "-" ++ formatCurrency (concessionAmount figures)
               else "-") |};
    {| className := Some "net-effective";
       content := Text (formatCurrency (netEffective figures)) |} ].

(** [App], the rows of the on-screen breakdown (lines 681-725), under the
    guards that enclose them: [if (loading) return ...] (line 400),
    [selectedProperty && selectedAnalysis &&] (line 457) and
    [scenarios[activeTab] &&] (line 510).  [None] when the table is not
    rendered. *)
Definition App_floorplanRows
  (loading : bool)
  (selectedProperty : option (Property num))
  (selectedAnalysis : option (Analysis num))
  (scenarios : list (Scenario num))
  (activeTab : nat) (editingScenario : option (Scenario num))
  : option (list (list (Td num))) :=
  if loading then None
  else
    match selectedProperty, selectedAnalysis with
    | Some property, Some _ =>
        match nth_error scenarios activeTab with
        | Some active =>
            Some (map (fun fp =>
                         App_floorplanTr fp
                           (App_currentScenario editingScenario active))
                      (pr_floorplans property))
        | None => None
        end
    | _, _ => None
    end.

(** [exportToPDF], the row of the comparison table (lines 291-304). *)
Definition exportToPDF_scenarioRow (s : Scenario num) : list (Cell num) :=
  [ Text (sc_name s);
    Text (if negb (strict_eq (base_rent_pct_adj s) (lit 0))
          then formatPercent (base_rent_pct_adj s)
          else if negb (strict_eq (base_rent_dollar_adj s) (lit 0))
               then formatCurrency (base_rent_dollar_adj s)
               else "-");
    Text (if negb (strict_eq (amenity_rent_pct_adj s) (lit 0))
          then formatPercent (amenity_rent_pct_adj s)
          else if negb (strict_eq (amenity_rent_dollar_adj s) (lit 0))
               then formatCurrency (amenity_rent_dollar_adj s)
               else "-");
    Text (if (concession_type s =? "none")%string then "-"
          else if (concession_type s =? "free_months")%string
               then Number_toString (concession_value s) ++ "mo free"
               else Number_toString (concession_value s));
    Text (match results s with
          | Some r => formatCurrency (total_annual_revenue r)
          | None => "-"
          end);
    Text (match results s with
          | Some r => formatCurrency (avg_rent_per_unit r)
          | None => "-"
          end);
    Text (match results s with
          | Some r => formatCurrency (revenue_per_sqft r)
          | None => "-"
          end);
    Text (match results s with
          | Some r => formatCurrency (weighted_avg_rent r)
          | None => "-"
          end) ].

(** [App], the [<tr>] of the sensitivity table (lines 826-854). *)
Definition App_sensitivityTr (scenario : Scenario num) : list (Td num) :=
  [ {| className := None; content := Text (sc_name scenario) |};
    {| className := None;
       content :=
         Text (if negb (strict_eq (base_rent_pct_adj scenario) (lit 0))
               then formatPercent (base_rent_pct_adj scenario)
               else if negb (strict_eq (base_rent_dollar_adj scenario) (lit 0))
                    then formatCurrency (base_rent_dollar_adj scenario)
                    else "-") |};
    {| className := None;
       content :=
         Text (if negb (strict_eq (amenity_rent_pct_adj scenario) (lit 0))
               then formatPercent (amenity_rent_pct_adj scenario)
               else if negb (strict_eq (amenity_rent_dollar_adj scenario)
                                       (lit 0))
                    then formatCurrency (amenity_rent_dollar_adj scenario)
                    else "-") |};
    {| className := None;
       content :=
         Text (if (concession_type scenario =? "none")%string then "-"
               else if (concession_type scenario =? "free_months")%string
                    then Number_toString (concession_value scenario)
                         ++ "mo free"
                    else Number_toString (concession_value scenario)) |};
    {| className := None;
       content := Text (match results scenario with
                        | Some r => formatCurrency (total_annual_revenue r)
                        | None => "-"
                        end) |};
    {| className := None;
       content := Text (match results scenario with
                        | Some r => formatCurrency (avg_rent_per_unit r)
                        | None => "-"
                        end) |};
    {| className := None;
       content := Text (match results scenario with
                        | Some r => formatCurrency (revenue_per_sqft r)
                        | None => "-"
                        end) |};
    {| className := None;
       content := Text (match results scenario with
                        | Some r => formatCurrency (weighted_avg_rent r)
                        | None => "-"
                        end) |} ].

(** [App], the rows of the on-screen sensitivity table (lines 826-854),
    under the guards that enclose them: [if (loading) return ...]
    (line 400), [selectedProperty && selectedAnalysis &&] (line 457) and
    [calculating ? ... : ...] (line 740).  The rows are those of
    [scenarios]; [editingScenario] is not read.  [None] when the table is
    not rendered. *)
Definition App_sensitivityRows
  (loading : bool)
  (selectedProperty : option (Property num))
  (selectedAnalysis : option (Analysis num))
  (calculating : bool) (scenarios : list (Scenario num))
  : option (list (list (Td num))) :=
  if loading then None
  else
    match selectedProperty, selectedAnalysis with
    | Some _, Some _ =>
        if calculating then None
        else Some (map App_sensitivityTr scenarios)
    | _, _ => None
    end.

(** The heads of the two tables of the PDF (lines 247 and 307). *)
Definition exportToPDF_floorplanHead : list string :=
  ["Floorplan"; "Type"; "Units"; "Sq Ft"; "Base Rent"; "Adj Base";
   "Amenity"; "Adj Amenity"; "Gross Rent"; "Concession"; "Net Effective"].

Definition exportToPDF_scenarioHead : list string :=
  ["Scenario"; "Base Rent Adj"; "Amenity Adj"; "Concessions";
   "Annual Revenue"; "Avg Rent/Unit"; "Revenue/SqFt"; "Weighted Avg"].

(** [exportToPDF] (lines 160-326), as far as its tables go: the guard,
    the scenario of the active tab, whose name is read before the first
    table is built, and the bodies handed to [autoTable]. *)
Definition exportToPDF
  (selectedProperty : option (Property num))
  (selectedAnalysis : option (Analysis num))
  (scenarios : list (Scenario num)) (activeTab : nat)
  : ExportOutcome num :=
  match selectedProperty, selectedAnalysis with
  | Some property, Some _ =>
      match nth_error scenarios activeTab with
      | None => TypeErrorThrown
      | Some currentScenario =>
          Exported
            (map (fun fp => exportToPDF_floorplanRow fp currentScenario)
                 (pr_floorplans property))
            (map exportToPDF_scenarioRow scenarios)
      end
  | _, _ => NotExported
  end.

(** The [onChange] handlers of the edit form (lines 565-647): the new
    value of [editingScenario]; [parsed] is [parseFloat(e.target.value)]
    and [value] is [e.target.value]. *)
Definition onChange_base_rent_pct_adj
  (editingScenario : Scenario num) (parsed : num) : Scenario num :=
  {| sc_id := sc_id editingScenario;
     analysis_id := analysis_id editingScenario;
     sc_name := sc_name editingScenario;
     base_rent_pct_adj := or_zero (parsed / lit 100);
     base_rent_dollar_adj := base_rent_dollar_adj editingScenario;
     amenity_rent_pct_adj := amenity_rent_pct_adj editingScenario;
     amenity_rent_dollar_adj := amenity_rent_dollar_adj editingScenario;
     concession_type := concession_type editingScenario;
     concession_value := concession_value editingScenario;
     results := results editingScenario;
     created_at := created_at editingScenario |}.

Definition onChange_base_rent_dollar_adj
  (editingScenario : Scenario num) (parsed : num) : Scenario num :=
  {| sc_id := sc_id editingScenario;
     analysis_id := analysis_id editingScenario;
     sc_name := sc_name editingScenario;
     base_rent_pct_adj := base_rent_pct_adj editingScenario;
     base_rent_dollar_adj := or_zero parsed;
     amenity_rent_pct_adj := amenity_rent_pct_adj editingScenario;
     amenity_rent_dollar_adj := amenity_rent_dollar_adj editingScenario;
     concession_type := concession_type editingScenario;
     concession_value := concession_value editingScenario;
     results := results editingScenario;
     created_at := created_at editingScenario |}.

Definition onChange_amenity_rent_pct_adj
  (editingScenario : Scenario num) (parsed : num) : Scenario num :=
  {| sc_id := sc_id editingScenario;
     analysis_id := analysis_id editingScenario;
     sc_name := sc_name editingScenario;
     base_rent_pct_adj := base_rent_pct_adj editingScenario;
     base_rent_dollar_adj := base_rent_dollar_adj editingScenario;
     amenity_rent_pct_adj := or_zero (parsed / lit 100);
     amenity_rent_dollar_adj := amenity_rent_dollar_adj editingScenario;
     concession_type := concession_type editingScenario;
     concession_value := concession_value editingScenario;
     results := results editingScenario;
     created_at := created_at editingScenario |}.

Definition onChange_amenity_rent_dollar_adj
  (editingScenario : Scenario num) (parsed : num) : Scenario num :=
  {| sc_id := sc_id editingScenario;
     analysis_id := analysis_id editingScenario;
     sc_name := sc_name editingScenario;
     base_rent_pct_adj := base_rent_pct_adj editingScenario;
     base_rent_dollar_adj := base_rent_dollar_adj editingScenario;
     amenity_rent_pct_adj := amenity_rent_pct_adj editingScenario;
     amenity_rent_dollar_adj := or_zero parsed;
     concession_type := concession_type editingScenario;
     concession_value := concession_value editingScenario;
     results := results editingScenario;
     created_at := created_at editingScenario |}.

(** The concession type select (lines 621-625) also resets the value. *)
Definition onChange_concession_type
  (editingScenario : Scenario num) (value : string) : Scenario num :=
  with_concession editingScenario value (lit 0).

Definition onChange_concession_value
  (editingScenario : Scenario num) (parsed : num) : Scenario num :=
  with_concession editingScenario (concession_type editingScenario)
                  (or_zero parsed).

End Component.

(** A formatting for the sample inputs: every number prints as ["#"]. *)
Definition sample_formatting (num : Type) : Formatting num := {|
  Intl_NumberFormat_format := fun _ => "#"%string;
  Number_toLocaleString := fun _ => "#"%string;
  Number_toFixed_1 := fun _ => "#"%string;
  Number_toString := fun _ => "#"%string
|}.

(** A formatting that tells the numbers apart: a rational prints as its
    reduced fraction, a currency amount with a dollar sign before it. *)
Definition string_of_Z (z : Z) : string :=
  NilZero.string_of_int (Z.to_int z).

Definition string_of_Q (q : Q) : string :=
  (string_of_Z (Qnum (Qred q)) ++ "/"
   ++ string_of_Z (Zpos (Qden (Qred q))))%string.

Definition fraction_formatting : Formatting Q := {|
  Intl_NumberFormat_format := fun q => ("$" ++ string_of_Q q)%string;
  Number_toLocaleString := string_of_Q;
  Number_toFixed_1 := string_of_Q;
  Number_toString := string_of_Q
|}.

(** Sample states of the component. *)
Definition with_id {num : Type} (s : Scenario num) (id : string)
  : Scenario num :=
  {| sc_id := id; analysis_id := analysis_id s; sc_name := sc_name s;
     base_rent_pct_adj := base_rent_pct_adj s;
     base_rent_dollar_adj := base_rent_dollar_adj s;
     amenity_rent_pct_adj := amenity_rent_pct_adj s;
     amenity_rent_dollar_adj := amenity_rent_dollar_adj s;
     concession_type := concession_type s;
     concession_value := concession_value s;
     results := results s; created_at := created_at s |}.

Definition with_results {num : Type} (s : Scenario num)
  (r : ScenarioResults num) : Scenario num :=
  {| sc_id := sc_id s; analysis_id := analysis_id s; sc_name := sc_name s;
     base_rent_pct_adj := base_rent_pct_adj s;
     base_rent_dollar_adj := base_rent_dollar_adj s;
     amenity_rent_pct_adj := amenity_rent_pct_adj s;
     amenity_rent_dollar_adj := amenity_rent_dollar_adj s;
     concession_type := concession_type s;
     concession_value := concession_value s;
     results := Some r; created_at := created_at s |}.

Definition property_of {num : Type} (id : string) (units_total : num)
  (fps : list (Floorplan num)) : Property num :=
  {| pr_id := id; pr_name := "Oak Park"; address := "1 Main Street";
     total_units := units_total;
     pr_created_at := "2025-01-01T00:00:00Z";
     pr_updated_at := "2025-01-01T00:00:00Z";
     pr_floorplans := fps |}.

Definition analysis_of {num : Type} (id property : string) (occupancy : num)
  (scs : list (Scenario num)) : Analysis num :=
  {| an_id := id; an_property_id := property; an_name := "Analysis";
     description := None; occupancy_rate := occupancy;
     an_created_at := "2025-01-01T00:00:00Z";
     an_updated_at := "2025-01-01T00:00:00Z";
     parent_analysis_id := None; an_scenarios := scs |}.

Definition sc_a : Scenario Q := with_id sc_identity "s-a".
Definition sc_b : Scenario Q := with_id sc_dollar_50 "s-b".

(** [sc_b] as it is being edited: +7% instead of +5%. *)
Definition sc_b_edited : Scenario Q :=
  with_id (scenario_of (7 # 100) 0 0 0 "dollar" 50) "s-b".

(** Two calculated scenarios with +5% on the base rent, the second with
    400 dollars on top. *)
Definition sc_b_calculated : Scenario Q :=
  with_results sc_b
    {| total_annual_revenue := 276000;
       avg_rent_per_unit := 550;
       revenue_per_sqft := 11 # 15;
       weighted_avg_rent := 550 |}.

Definition sc_c_calculated : Scenario Q :=
  with_results (with_id (scenario_of (5 # 100) 400 0 0 "dollar" 50) "s-c")
    {| total_annual_revenue := 372000;
       avg_rent_per_unit := 750;
       revenue_per_sqft := 1;
       weighted_avg_rent := 750 |}.

(** What the backend answers for an id it does not know in the list. *)
Definition sc_z : Scenario Q := with_id sc_dollar_5000 "s-z".

Definition property_1 : Property Q :=
  property_of "p-1" 20 [fp_example; fp_rent_free].

Definition analysis_1 : Analysis Q :=
  analysis_of "a-1" "p-1" (95 # 100) [sc_a; sc_b].

Definition analysis_1b : Analysis Q := analysis_of "a-1b" "p-1" 1 [].

Definition analysis_2 : Analysis Q :=
  analysis_of "a-2" "p-2" (9 # 10) [sc_a].

(** A backend that fails on scenario ["s-b"] alone. *)
Definition calculate_failing_on_b (id : string) : Settled (Scenario Q) :=
  if (id =? "s-b")%string then Rejected else Fulfilled (with_id sc_identity id).

(** Binary64 scenarios: the one a reset asks for, and two with results,
    one of them with a revenue that is NaN. *)
Definition sc_reset64 : Scenario float :=
  scenario_of 0%float 0%float 0%float 0%float "none" 0%float.

Definition sc_with_revenue64 : Scenario float :=
  with_results sc_reset64
    {| total_annual_revenue := 132000%float;
       avg_rent_per_unit := 1100%float;
       revenue_per_sqft := 1%float;
       weighted_avg_rent := 1100%float |}.

Definition sc_with_NaN_revenue64 : Scenario float :=
  with_results sc_reset64
    {| total_annual_revenue := PrimFloat.nan;
       avg_rent_per_unit := PrimFloat.nan;
       revenue_per_sqft := PrimFloat.nan;
       weighted_avg_rent := PrimFloat.nan |}.

(** Binary64 at its ends: a base rent of 2^-1074, the smallest positive
    number, and one of 2^1023, which +100% takes to Infinity. *)
Definition fp_tiny64 : Floorplan float :=
  floorplan_of 10%float 750%float 0x1p-1074%float 0%float.

Definition fp_huge64 : Floorplan float :=
  floorplan_of 10%float 750%float 0x1p1023%float 0%float.

Definition sc_percentage_101_64 : Scenario float :=
  scenario_of 0%float 0%float 0%float 0%float "percentage" 101%float.

(** +100% on the base rent, with free months or without a concession. *)
Definition sc_doubled64 (ctype : string) (cvalue : float) : Scenario float :=
  scenario_of 1%float 0%float 0%float 0%float ctype cvalue.

Definition sc_free_months64 (months : float) : Scenario float :=
  scenario_of 0%float 0%float 0%float 0%float "free_months" months.

(* ------------------------------------------------------------------ *)
(** ** Facts that hold for every interpretation of the operators *)

(** Splits a goal about a row along the [if]-chain on [concession_type]. *)
Ltac concession_cases c s :=
  destruct c; unfold row_of, exportToPDF_row, App_row;
  (destruct (concession_type s =? "percentage")%string eqn:?;
   [| destruct (concession_type s =? "dollar")%string eqn:?;
      [| destruct (concession_type s =? "free_months")%string eqn:? ]]).

(** Takes the branch of the [if]-chain that [H : concession_type s = _]
    selects. *)
Ltac take_branch c H :=
  destruct c; unfold row_of, exportToPDF_row, App_row;
  rewrite H; cbn [String.eqb Ascii.eqb Bool.eqb].

Section AnyNumber.

Context {num : Type} {N : Number num}.
Local Open Scope js_scope.
Local Open Scope string_scope.

Variables (c : Copy) (fp : Floorplan num) (s : Scenario num).

Lemma row_adjustments :
  adjustedBase (row_of c fp s)
    = base_rent fp * (lit 1 + base_rent_pct_adj s) + base_rent_dollar_adj s
  /\ adjustedAmenity (row_of c fp s)
    = amenity_rent fp * (lit 1 + amenity_rent_pct_adj s)
      + amenity_rent_dollar_adj s
  /\ grossRent (row_of c fp s)
    = adjustedBase (row_of c fp s) + adjustedAmenity (row_of c fp s).
Proof. concession_cases c s; repeat split. Qed.

Lemma row_percentage :
  concession_type s = "percentage" ->
  concessionAmount (row_of c fp s)
    = grossRent (row_of c fp s) * (concession_value s / lit 100)
  /\ netEffective (row_of c fp s)
    = grossRent (row_of c fp s) - concessionAmount (row_of c fp s).
Proof. intros H. take_branch c H; split; reflexivity. Qed.

Lemma row_dollar :
  concession_type s = "dollar" ->
  concessionAmount (row_of c fp s) = concession_value s
  /\ netEffective (row_of c fp s)
    = Math_max (lit 0) (grossRent (row_of c fp s) - concession_value s).
Proof. intros H. take_branch c H; split; reflexivity. Qed.

Lemma row_free_months :
  concession_type s = "free_months" ->
  concessionAmount (row_of c fp s)
    = grossRent (row_of c fp s) * (concession_value s / lit 12)
  /\ netEffective (row_of c fp s)
    = grossRent (row_of c fp s) * ((lit 12 - concession_value s) / lit 12).
Proof. intros H. take_branch c H; split; reflexivity. Qed.

Lemma row_otherwise :
  concession_type s <> "percentage" ->
  concession_type s <> "dollar" ->
  concession_type s <> "free_months" ->
  concessionAmount (row_of c fp s) = lit 0
  /\ netEffective (row_of c fp s) = grossRent (row_of c fp s).
Proof.
  intros Hp Hd Hf.
  apply String.eqb_neq in Hp, Hd, Hf.
  destruct c; unfold row_of, exportToPDF_row, App_row;
    rewrite Hp, Hd, Hf; split; reflexivity.
Qed.

(** C1: in either copy, for every floorplan and every scenario,
    [adjustedBase = base_rent * (1 + base_rent_pct_adj) + base_rent_dollar_adj],
    [adjustedAmenity = amenity_rent * (1 + amenity_rent_pct_adj)
    + amenity_rent_dollar_adj] and [grossRent = adjustedBase +
    adjustedAmenity]: the dollar adjustment is added to the amount already
    adjusted by the percentage, whatever the concession type. *)
Theorem rent_adjustment_multiplicative_then_additive :
  adjustedBase (row_of c fp s)
    = base_rent fp * (lit 1 + base_rent_pct_adj s) + base_rent_dollar_adj s
  /\ adjustedAmenity (row_of c fp s)
    = amenity_rent fp * (lit 1 + amenity_rent_pct_adj s)
      + amenity_rent_dollar_adj s
  /\ grossRent (row_of c fp s)
    = (base_rent fp * (lit 1 + base_rent_pct_adj s) + base_rent_dollar_adj s)
      + (amenity_rent fp * (lit 1 + amenity_rent_pct_adj s)
         + amenity_rent_dollar_adj s).
Proof.
  destruct row_adjustments as (Hb & Ha & Hg).
  rewrite Hg, Hb, Ha. repeat split.
Qed.

(** C9: in either copy, when [concession_type] is none of ["percentage"],
    ["dollar"] and ["free_months"] (the declared ["none"] or any other
    string), no branch of the [if]-chain fires: [concessionAmount = 0] and
    [netEffective = grossRent]. *)
Theorem other_concession_types_fall_through :
  concession_type s <> "percentage" ->
  concession_type s <> "dollar" ->
  concession_type s <> "free_months" ->
  concessionAmount (row_of c fp s) = lit 0
  /\ netEffective (row_of c fp s) = grossRent (row_of c fp s).
Proof. exact row_otherwise. Qed.

(** C2: in either copy, a scenario with [concession_type = "dollar"] has
    [concessionAmount = concession_value] and
    [netEffective = max(0, grossRent - concession_value)], and so a net
    effective rent that is never below 0, however large the concession. *)
Theorem dollar_concession_floored_at_zero {F : FlooredMax num} :
  concession_type s = "dollar" ->
  concessionAmount (row_of c fp s) = concession_value s
  /\ netEffective (row_of c fp s)
     = Math_max (lit 0) (grossRent (row_of c fp s) - concession_value s)
  /\ jlt (netEffective (row_of c fp s)) (lit 0) = false.
Proof.
  intros H. destruct (row_dollar H) as [Hc Hn].
  split; [assumption |]. split; [assumption |].
  rewrite Hn. apply Math_max_floor.
Qed.

(** C7: the calculation of the PDF export and the calculation of the
    on-screen table are the same function of the floorplan and the
    scenario, and so give the same five figures. *)
Theorem pdf_and_table_rows_agree :
  @exportToPDF_row num N = @App_row num N
  /\ adjustedBase (exportToPDF_row fp s) = adjustedBase (App_row fp s)
  /\ adjustedAmenity (exportToPDF_row fp s) = adjustedAmenity (App_row fp s)
  /\ grossRent (exportToPDF_row fp s) = grossRent (App_row fp s)
  /\ concessionAmount (exportToPDF_row fp s) = concessionAmount (App_row fp s)
  /\ netEffective (exportToPDF_row fp s) = netEffective (App_row fp s).
Proof.
  assert (E : @exportToPDF_row num N = @App_row num N) by reflexivity.
  split; [exact E |]. rewrite E. repeat split.
Qed.

(** C5 (amended): the calculation never fails and validates nothing: for
    every floorplan and every scenario, also with [unit_count < 0],
    [square_footage <= 0] or a negative rent, it returns the figures that
    either copy computes; no error kind, [InvalidInput] included, is ever
    raised. *)
Theorem calculation_never_fails :
  (exists figures,
      calculateFloorplanFigures fp s = Normal figures
      /\ figures = row_of Table fp s
      /\ figures = row_of PDF fp s)
  /\ (forall e, calculateFloorplanFigures fp s <> Throw e).
Proof.
  split.
  - exists (App_row fp s). repeat split.
  - intros e. unfold calculateFloorplanFigures. discriminate.
Qed.

End AnyNumber.

(** The adjusted rents do not look at the concession. *)
Lemma row_with_concession {num : Type} {N : Number num}
  (c : Copy) (fp : Floorplan num) (s : Scenario num)
  (ctype : string) (cvalue : num) :
  adjustedBase (row_of c fp (with_concession s ctype cvalue))
    = adjustedBase (row_of c fp s)
  /\ adjustedAmenity (row_of c fp (with_concession s ctype cvalue))
    = adjustedAmenity (row_of c fp s)
  /\ grossRent (row_of c fp (with_concession s ctype cvalue))
    = grossRent (row_of c fp s).
Proof.
  destruct (row_adjustments c fp s) as (Hb & Ha & Hg).
  destruct (row_adjustments c fp (with_concession s ctype cvalue))
    as (Hb' & Ha' & Hg').
  rewrite Hg', Hg, Hb', Ha', Hb, Ha. repeat split.
Qed.

(* ------------------------------------------------------------------ *)
(** ** Exact arithmetic *)

Section Exact.

Local Open Scope Q_scope.

Variables (c : Copy) (fp : Floorplan Q) (s : Scenario Q).

(** The operators of [Q_Number], named. *)
Ltac exact_ops :=
  cbn [jadd jsub jmul jdiv Math_max lit strict_eq Q_Number] in *;
  change (inject_Z 0) with 0 in *;
  change (inject_Z 1) with 1 in *;
  change (inject_Z 12) with 12 in *;
  change (inject_Z 100) with 100 in *.

Lemma percent_of_gross (g x : Q) : g - g * (x / 100) == g * (1 - x / 100).
Proof. field. Qed.

Lemma over_100_percent (g x : Q) : 100 < x -> 0 < g -> g - g * (x / 100) < 0.
Proof.
  intros Hx Hg.
  assert (E : g - g * (x / 100) == - (g * ((x - 100) * (1 # 100)))) by field.
  rewrite E.
  assert (0 < g * ((x - 100) * (1 # 100))).
  { apply Qmult_lt_0_compat; [assumption | lra]. }
  lra.
Qed.

(** The floor of the dollar branch, read in the order of [Q]. *)
Lemma dollar_net_effective_nonnegative :
  concession_type s = "dollar"%string ->
  netEffective (row_of c fp s)
    = Qmax 0 (grossRent (row_of c fp s) - concession_value s)
  /\ 0 <= netEffective (row_of c fp s).
Proof.
  intros H. destruct (row_dollar c fp s H) as [_ Hn]. exact_ops.
  split; [assumption |]. rewrite Hn. apply Q.le_max_l.
Qed.

(** The percentage branch in exact arithmetic: the two assignments, the
    closed form [grossRent * (1 - x / 100)], and the sign of the result
    for [x > 100]. *)
Lemma percentage_concession_exact :
  concession_type s = "percentage"%string ->
  concessionAmount (row_of c fp s)
    = grossRent (row_of c fp s) * (concession_value s / 100)
  /\ netEffective (row_of c fp s)
     = grossRent (row_of c fp s) - concessionAmount (row_of c fp s)
  /\ netEffective (row_of c fp s)
     == grossRent (row_of c fp s) * (1 - concession_value s / 100)
  /\ (100 < concession_value s -> 0 < grossRent (row_of c fp s) ->
      netEffective (row_of c fp s) < 0)
  /\ (100 < concession_value s -> grossRent (row_of c fp s) == 0 ->
      netEffective (row_of c fp s) == 0).
Proof.
  intros H. destruct (row_percentage c fp s H) as [Hc Hn]. exact_ops.
  split; [assumption |]. split; [assumption |].
  rewrite Hn, Hc. split; [apply percent_of_gross |]. split.
  - apply over_100_percent.
  - intros _ Hg. rewrite Hg. ring.
Qed.

(** The free months branch in exact arithmetic: the two assignments, the
    sign of the result for [v] outside [[0, 12]], and the figures for
    [v = 0] and [v = 12]. *)
Lemma free_months_concession_exact :
  concession_type s = "free_months"%string ->
  concessionAmount (row_of c fp s)
    = grossRent (row_of c fp s) * (concession_value s / 12)
  /\ netEffective (row_of c fp s)
     = grossRent (row_of c fp s) * ((12 - concession_value s) / 12)
  /\ (12 < concession_value s -> 0 < grossRent (row_of c fp s) ->
      netEffective (row_of c fp s) < 0)
  /\ (concession_value s < 0 -> 0 < grossRent (row_of c fp s) ->
      grossRent (row_of c fp s) < netEffective (row_of c fp s))
  /\ (concession_value s == 0 ->
      figures_eq (row_of c fp s)
                 (row_of c fp (with_concession s "none" (concession_value s))))
  /\ (concession_value s == 12 -> netEffective (row_of c fp s) == 0).
Proof.
  intros H. destruct (row_free_months c fp s H) as [Hc Hn]. exact_ops.
  split; [assumption |]. split; [assumption |].
  set (g := grossRent (row_of c fp s)) in *.
  set (v := concession_value s) in *.
  split; [| split; [| split]].
  - intros Hv Hg. rewrite Hn.
    assert (E : g * ((12 - v) / 12) == - (g * ((v - 12) * (1 # 12)))) by field.
    rewrite E.
    assert (0 < g * ((v - 12) * (1 # 12))).
    { apply Qmult_lt_0_compat; [assumption | lra]. }
    lra.
  - intros Hv Hg. rewrite Hn.
    assert (E : g * ((12 - v) / 12) == g + g * ((- v) * (1 # 12))) by field.
    rewrite E.
    assert (0 < g * ((- v) * (1 # 12))).
    { apply Qmult_lt_0_compat; [assumption | lra]. }
    lra.
  - intros Hv.
    destruct (row_with_concession c fp s "none" v) as (Hb' & Ha' & Hg').
    destruct (row_otherwise c fp (with_concession s "none" v))
      as [Hc' Hn']; try discriminate.
    exact_ops.
    unfold figures_eq. rewrite Hb', Ha', Hn', Hg', Hc', Hc, Hn. fold g.
    repeat split; try reflexivity.
    + rewrite Hv. field.
    + rewrite Hv. field.
  - intros Hv. rewrite Hn, Hv. field.
Qed.

(** C8: in either copy, the scenario with both percentage adjustments 0,
    both dollar adjustments 0 and [concession_type = "none"] has
    [netEffective = base_rent + amenity_rent]. *)
Theorem identity_scenario_keeps_rent :
  base_rent_pct_adj s == 0 ->
  amenity_rent_pct_adj s == 0 ->
  base_rent_dollar_adj s == 0 ->
  amenity_rent_dollar_adj s == 0 ->
  concession_type s = "none"%string ->
  netEffective (row_of c fp s) == base_rent fp + amenity_rent fp.
Proof.
  intros Hbp Hap Hbd Had H.
  destruct (row_adjustments c fp s) as (Hb & Ha & Hg).
  destruct (row_otherwise c fp s) as [_ Hn];
    try (rewrite H; discriminate).
  exact_ops.
  rewrite Hn, Hg, Hb, Ha, Hbp, Hap, Hbd, Had. ring.
Qed.

(** C10 (amended): in either copy and in exact arithmetic,
    [netEffective + concessionAmount = grossRent] when [concession_type]
    is ["none"], ["percentage"] or ["free_months"].  When it is ["dollar"]
    the identity holds exactly when [grossRent >= concession_value];
    otherwise [netEffective] is clamped to 0, [concessionAmount] is still
    the whole [concession_value], and their sum exceeds [grossRent]. *)
Theorem net_plus_concession_is_gross :
  (concession_type s = "none"%string
   \/ concession_type s = "percentage"%string
   \/ concession_type s = "free_months"%string ->
   netEffective (row_of c fp s) + concessionAmount (row_of c fp s)
     == grossRent (row_of c fp s))
  /\ (concession_type s = "dollar"%string ->
      (netEffective (row_of c fp s) + concessionAmount (row_of c fp s)
         == grossRent (row_of c fp s)
       <-> concession_value s <= grossRent (row_of c fp s))
      /\ (~ concession_value s <= grossRent (row_of c fp s) ->
          netEffective (row_of c fp s) == 0
          /\ concessionAmount (row_of c fp s) = concession_value s
          /\ grossRent (row_of c fp s)
             < netEffective (row_of c fp s)
               + concessionAmount (row_of c fp s))).
Proof.
  split.
  - intros [H | [H | H]].
    + destruct (row_otherwise c fp s) as [Hc Hn];
        try (rewrite H; discriminate).
      exact_ops. rewrite Hn, Hc. ring.
    + destruct (row_percentage c fp s H) as [Hc Hn]. exact_ops.
      rewrite Hn. ring.
    + destruct (row_free_months c fp s H) as [Hc Hn]. exact_ops.
      rewrite Hn, Hc. field.
  - intros H. destruct (row_dollar c fp s H) as [Hc Hn]. exact_ops.
    set (g := grossRent (row_of c fp s)) in *.
    set (v := concession_value s) in *.
    rewrite Hn, Hc.
    destruct (Q.max_spec 0 (g - v)) as [[Hlt Hm] | [Hle Hm]];
      rewrite Hm; repeat split; intros; try reflexivity; lra.
Qed.

End Exact.

(* ------------------------------------------------------------------ *)
(** ** The floor in both interpretations *)

Lemma Q_Math_max_floor (x : Q) :
  jlt (Math_max (lit 0) x) (lit 0) = false.
Proof.
  cbn [jlt Math_max lit Q_Number].
  apply negb_false_iff, Qle_bool_iff, Q.le_max_l.
Qed.

#[export] Instance Q_FlooredMax : FlooredMax Q := Q_Math_max_floor.

(** For binary64 the comparison is decided on the specification of [<?]:
    a value above +0 is not below it, and in every other case the result
    of [Math.max] is NaN or +0 itself. *)
Lemma F64_Math_max_floor (x : float) :
  jlt (Math_max (lit 0) x) (lit 0) = false.
Proof.
  cbn [jlt Math_max lit F64_Number].
  change (f64_lit 0) with PrimFloat.zero.
  unfold f64_Math_max.
  change (PrimFloat.is_nan PrimFloat.zero) with false. cbn [orb].
  destruct (PrimFloat.is_nan x); [reflexivity |].
  destruct (PrimFloat.ltb PrimFloat.zero x) eqn:E.
  - rewrite ltb_spec in *.
    change (Prim2SF PrimFloat.zero) with (S754_zero false) in *.
    destruct (Prim2SF x) as [ [|] | [|] | | [|] m e ];
      cbn in *; try reflexivity; discriminate.
  - destruct (PrimFloat.ltb x PrimFloat.zero); [reflexivity |].
    change (PrimFloat.is_zero PrimFloat.zero
            && PrimFloat.get_sign PrimFloat.zero)%bool with false.
    reflexivity.
Qed.

#[export] Instance F64_FlooredMax : FlooredMax float := F64_Math_max_floor.

(* ------------------------------------------------------------------ *)
(** ** Binary64 arithmetic with 0 and 1

    The identities of exact arithmetic that survive rounding, from the
    specification of the primitive operations. *)

Section Binary64Laws.

Local Open Scope Z_scope.

Lemma digits_shift52 (m : positive) :
  Zpos (digits2_pos (Pos.iter xO m 52)) = Zpos (digits2_pos m) + 52.
Proof. cbn [Pos.iter digits2_pos]. lia. Qed.

Lemma shr_52 (m : positive) :
  SpecFloat.iter_pos shr_1 52
    (shr_record_of_loc (Zpos (Pos.iter xO m 52)) loc_Exact)
  = {| shr_m := Zpos m; shr_r := false; shr_s := false |}.
Proof. reflexivity. Qed.

(** A mantissa followed by 52 zero bits rounds back to itself. *)
Lemma round_exact (s : bool) (m : positive) (e : Z) :
  bounded prec emax m e = true ->
  binary_round_aux prec emax s (Zpos (Pos.iter xO m 52)) (e - 52) loc_Exact
  = S754_finite s m e.
Proof.
  unfold bounded, canonical_mantissa. intros V.
  apply andb_prop in V. destruct V as [C B]. apply Z.eqb_eq in C.
  unfold binary_round_aux, shr_fexp.
  unfold Zdigits2 at 1. rewrite digits_shift52.
  replace (Z.pos (digits2_pos m) + 52 + (e - 52))
    with (Z.pos (digits2_pos m) + e) by lia.
  rewrite C.
  replace (e - (e - 52)) with 52 by lia.
  unfold shr at 1. rewrite shr_52.
  cbn [loc_of_shr_record shr_m round_nearest_even Zdigits2 shr_record_of_loc].
  replace (e - 52 + 52) with e by lia.
  rewrite C, Z.sub_diag. cbn [shr shr_m].
  rewrite B. reflexivity.
Qed.

Lemma SFmul_one (x : spec_float) :
  valid_binary x = true ->
  SFmul prec emax x (S754_finite false 4503599627370496 (-52)) = x.
Proof.
  destruct x as [s | s | | s m e]; cbn [SFmul]; intros V.
  - now destruct s.
  - now destruct s.
  - reflexivity.
  - rewrite xorb_false_r.
    replace (Pos.mul m 4503599627370496) with (Pos.iter xO m 52)
      by (rewrite Pos.mul_comm; reflexivity).
    apply (round_exact s m e V).
Qed.

Local Open Scope float_scope.

(** [x * 1] is [x], for every binary64 value. *)
Lemma f64_mul_one (x : float) : x * 1 = x.
Proof.
  apply Prim2SF_inj. rewrite mul_spec.
  change (Prim2SF 1) with (S754_finite false 4503599627370496 (-52)).
  apply SFmul_one, Prim2SF_valid.
Qed.

(** [x + 0] is [x], except that [-0 + 0] is [+0]. *)
Lemma f64_add_zero (x : float) : x = neg_zero \/ x + 0 = x.
Proof.
  destruct (Prim2SF x) as [[|] | s | | s m e] eqn:E.
  - left. apply Prim2SF_inj. rewrite E. reflexivity.
  - right. apply Prim2SF_inj. rewrite add_spec, E. reflexivity.
  - right. apply Prim2SF_inj. rewrite add_spec, E. reflexivity.
  - right. apply Prim2SF_inj. rewrite add_spec, E. reflexivity.
  - right. apply Prim2SF_inj. rewrite add_spec, E. reflexivity.
Qed.

Lemma f64_zero_add (x : float) : x = neg_zero \/ 0 + x = x.
Proof.
  destruct (Prim2SF x) as [[|] | s | | s m e] eqn:E.
  - left. apply Prim2SF_inj. rewrite E. reflexivity.
  - right. apply Prim2SF_inj. rewrite add_spec, E. reflexivity.
  - right. apply Prim2SF_inj. rewrite add_spec, E. reflexivity.
  - right. apply Prim2SF_inj. rewrite add_spec, E. reflexivity.
  - right. apply Prim2SF_inj. rewrite add_spec, E. reflexivity.
Qed.

(** Adding [-0] changes nothing. *)
Lemma f64_add_neg_zero (x : float) : x + neg_zero = x.
Proof.
  apply Prim2SF_inj. rewrite add_spec.
  change (Prim2SF neg_zero) with (S754_zero true).
  destruct (Prim2SF x) as [[|] | s | | s m e]; reflexivity.
Qed.

Lemma f64_neg_zero_add (x : float) : neg_zero + x = x.
Proof.
  apply Prim2SF_inj. rewrite add_spec.
  change (Prim2SF neg_zero) with (S754_zero true).
  destruct (Prim2SF x) as [[|] | s | | s m e]; reflexivity.
Qed.

(** [Number.isFinite]: a zero or a finite non-zero number. *)
Lemma f64_is_finite (x : float) :
  PrimFloat.is_finite x = true ->
  (exists s, Prim2SF x = S754_zero s)
  \/ (exists s m e, Prim2SF x = S754_finite s m e).
Proof.
  unfold PrimFloat.is_finite, PrimFloat.is_nan, PrimFloat.is_infinity.
  rewrite !FloatAxioms.eqb_spec, abs_spec.
  change (Prim2SF infinity) with (S754_infinity false).
  destruct (Prim2SF x) as [s | s | | s m e].
  - intros _. left. now exists s.
  - destruct s; cbn; discriminate.
  - cbn; discriminate.
  - intros _. right. now exists s, m, e.
Qed.

(** A finite number times 0 is a zero. *)
Lemma f64_mul_zero (x : float) :
  PrimFloat.is_finite x = true -> (x * 0 =? 0) = true.
Proof.
  intros F. rewrite FloatAxioms.eqb_spec, mul_spec.
  change (Prim2SF 0) with (S754_zero false).
  destruct (f64_is_finite x F) as [[s E] | (s & m & e & E)];
    rewrite E; reflexivity.
Qed.

Lemma f64_zero_cases (x : float) :
  (x =? 0) = true -> x = 0 \/ x = neg_zero.
Proof.
  rewrite FloatAxioms.eqb_spec.
  change (Prim2SF 0) with (S754_zero false).
  destruct (Prim2SF x) as [[|] | [|] | | [|] m e] eqn:E;
    cbn; try discriminate; intros _.
  - right. apply Prim2SF_inj. rewrite E. reflexivity.
  - left. apply Prim2SF_inj. rewrite E. reflexivity.
Qed.

Lemma f64_eqb_refl (x : float) :
  PrimFloat.is_nan x = false -> (x =? x) = true.
Proof. unfold PrimFloat.is_nan. now destruct (x =? x). Qed.

End Binary64Laws.

(* ------------------------------------------------------------------ *)
(** ** Aggregation *)

Section Rows.

Context {num : Type} {N : Number num}.

(** No floorplan makes the calculator fail, so the aggregator always gets
    its rows. *)
Lemma rows_complete (s : Scenario num) (floorplans : list (Floorplan num)) :
  mapM (fun fp =>
          bind (calculateFloorplanFigures fp s)
               (fun figures => Normal (fp, figures)))
       floorplans
  = Normal (map (fun fp => (fp, App_row fp s)) floorplans).
Proof.
  induction floorplans as [| fp fps IH]; [reflexivity |].
  cbn [mapM map]. rewrite IH. reflexivity.
Qed.

End Rows.

Section ZeroUnits.

Local Open Scope Q_scope.



End ZeroUnits.

(* ------------------------------------------------------------------ *)
(** ** The statements at sample inputs *)

Section Samples.

Local Open Scope Q_scope.

(** A concession of 5000 dollars on a gross rent of 1100. *)
Lemma dollar_concession_floored_witness :
  concession_type sc_dollar_5000 = "dollar"%string
  /\ concessionAmount (row_of Table fp_example sc_dollar_5000) = 5000
  /\ jlt (netEffective (row_of Table fp_example sc_dollar_5000)) (lit 0)
     = false.
Proof.
  split; [reflexivity |].
  pose proof (dollar_concession_floored_at_zero
                Table fp_example sc_dollar_5000 eq_refl) as (Hc & _ & Hf).
  split; [exact Hc | exact Hf].
Defined.

(** C3, as stated, fails on a gross rent of zero: 150 percent off a rent
    of 0 is a concession of 0, and the net effective rent is 0, which is
    not negative. *)
Lemma percentage_over_100_of_zero_gross :
  concession_type sc_percentage_150 = "percentage"%string
  /\ 100 < concession_value sc_percentage_150
  /\ 0 <= grossRent (row_of Table fp_rent_free sc_percentage_150)
  /\ netEffective (row_of Table fp_rent_free sc_percentage_150) == 0
  /\ ~ netEffective (row_of Table fp_rent_free sc_percentage_150) < 0.
Proof.
  repeat split; try reflexivity; vm_compute; discriminate.
Qed.

Lemma identity_scenario_witness :
  concession_type sc_identity = "none"%string
  /\ netEffective (row_of PDF fp_example sc_identity) == 1000 + 100.
Proof.
  split; [reflexivity |].
  apply (identity_scenario_keeps_rent PDF fp_example sc_identity);
    reflexivity.
Defined.

(** The declared ["none"], and a string outside the declared union. *)
Lemma other_concession_types_witness :
  (concession_type sc_identity = "none"%string
   /\ concessionAmount (row_of Table fp_example sc_identity) = 0
   /\ netEffective (row_of Table fp_example sc_identity)
      = grossRent (row_of Table fp_example sc_identity))
  /\ (concession_type sc_undeclared = "monthly"%string
      /\ concessionAmount (row_of PDF fp_example sc_undeclared) = 0
      /\ netEffective (row_of PDF fp_example sc_undeclared)
         = grossRent (row_of PDF fp_example sc_undeclared)).
Proof.
  split; (split; [reflexivity |]).
  - exact (other_concession_types_fall_through Table fp_example sc_identity
             ltac:(discriminate) ltac:(discriminate) ltac:(discriminate)).
  - exact (other_concession_types_fall_through PDF fp_example sc_undeclared
             ltac:(discriminate) ltac:(discriminate) ltac:(discriminate)).
Defined.

(** One free month, where the identity holds, and a concession of 5000
    dollars on a gross rent of 1100, where it does not. *)
Lemma net_plus_concession_witness :
  netEffective (row_of Table fp_example (sc_free_months 1))
    + concessionAmount (row_of Table fp_example (sc_free_months 1))
    == grossRent (row_of Table fp_example (sc_free_months 1))
  /\ (~ concession_value sc_dollar_5000
        <= grossRent (row_of Table fp_example sc_dollar_5000))
  /\ netEffective (row_of Table fp_example sc_dollar_5000) == 0
  /\ grossRent (row_of Table fp_example sc_dollar_5000)
     < netEffective (row_of Table fp_example sc_dollar_5000)
       + concessionAmount (row_of Table fp_example sc_dollar_5000).
Proof.
  assert (Hover : ~ concession_value sc_dollar_5000
                    <= grossRent (row_of Table fp_example sc_dollar_5000)).
  { intros H. vm_compute in H. apply H. reflexivity. }
  pose proof (net_plus_concession_is_gross
                Table fp_example (sc_free_months 1)) as [Hsum _].
  pose proof (net_plus_concession_is_gross
                Table fp_example sc_dollar_5000) as [_ Hdollar].
  destruct (Hdollar eq_refl) as [_ Hclamp].
  destruct (Hclamp Hover) as (Hn & _ & Hgt).
  split; [apply Hsum; right; right; reflexivity |].
  split; [exact Hover |]. split; [exact Hn | exact Hgt].
Defined.

(** C5, as stated, fails on a floorplan with a negative unit count, no
    area and negative rents: the calculation returns figures for it. *)
Lemma invalid_floorplan_is_calculated :
  unit_count fp_invalid < 0
  /\ square_footage fp_invalid <= 0
  /\ base_rent fp_invalid < 0
  /\ amenity_rent fp_invalid < 0
  /\ calculateFloorplanFigures fp_invalid sc_identity
     <> Throw InvalidInput
  /\ exists figures,
       calculateFloorplanFigures fp_invalid sc_identity = Normal figures
       /\ netEffective figures == - (1100).
Proof.
  repeat split; try reflexivity; try discriminate.
  eexists. split; [reflexivity |]. vm_compute. reflexivity.
Qed.


End Samples.

(* ------------------------------------------------------------------ *)
(** ** The worked examples of the specification *)

Section WorkedExamples.

Local Open Scope Q_scope.

(** +5% base rent and 50 dollars off: 1050, 1150, 1100. *)
Example dollar_example_row :
  adjustedBase (row_of Table fp_example sc_dollar_50) == 1050
  /\ grossRent (row_of Table fp_example sc_dollar_50) == 1150
  /\ concessionAmount (row_of Table fp_example sc_dollar_50) == 50
  /\ netEffective (row_of Table fp_example sc_dollar_50) == 1100.
Proof. repeat split. Qed.

(** One free month: 1100 and 1100 * 11/12. *)
Example free_month_example_row :
  grossRent (row_of Table fp_example (sc_free_months 1)) == 1100
  /\ netEffective (row_of Table fp_example (sc_free_months 1)) == 3025 # 3.
Proof. repeat split. Qed.

(** Aggregated over the one floorplan: 132000 a year, 1100 a unit,
    22/15 = 1.4667 a square foot. *)
Example dollar_example_results :
  exists r : ScenarioResults Q,
    calculateScenarioResults [fp_example] sc_dollar_50 = Normal r
    /\ total_annual_revenue r == 132000
    /\ avg_rent_per_unit r == 1100
    /\ revenue_per_sqft r == 22 # 15
    /\ weighted_avg_rent r == 1100.
Proof. eexists. split; [reflexivity |]. repeat split. Qed.

End WorkedExamples.

(* ------------------------------------------------------------------ *)
(** ** Binary64 *)

Section Binary64.

Local Open Scope float_scope.

(** The first worked example comes out the same in binary64. *)
Example dollar_example_row_binary64 :
  adjustedBase (row_of PDF fp_example64 sc_dollar_50_64) = 1050
  /\ grossRent (row_of PDF fp_example64 sc_dollar_50_64) = 1150
  /\ concessionAmount (row_of PDF fp_example64 sc_dollar_50_64) = 50
  /\ netEffective (row_of PDF fp_example64 sc_dollar_50_64) = 1100.
Proof. repeat split. Qed.

Example dollar_example_results_binary64 :
  exists r : ScenarioResults float,
    calculateScenarioResults [fp_example64] sc_dollar_50_64 = Normal r
    /\ total_annual_revenue r = 132000
    /\ avg_rent_per_unit r = 1100
    /\ weighted_avg_rent r = 1100.
Proof. eexists. split; [reflexivity |]. repeat split. Qed.

(** Seven percent off a gross rent of 500: the code subtracts the
    concession and gets 465; the product [500 * (1 - 7 / 100)] is another
    binary64 number, the one just below. *)
Remark percentage_net_rounds_in_binary64 :
  concession_type sc_percentage_7 = "percentage"%string
  /\ grossRent (row_of Table fp_500 sc_percentage_7) = 500
  /\ netEffective (row_of Table fp_500 sc_percentage_7) = 465
  /\ strict_eq (netEffective (row_of Table fp_500 sc_percentage_7))
               (500 * (1 - 7 / 100)) = false
  /\ PrimFloat.next_down 465 = 500 * (1 - 7 / 100).
Proof. repeat split. Qed.

(** C10, as stated, fails in binary64: with one free month on a gross
    rent of 650 the two figures are rounded separately, and their sum is
    the binary64 number just below 650. *)
Lemma free_month_sum_rounds_in_binary64 :
  concession_type sc_free_month64 = "free_months"%string
  /\ grossRent (row_of Table fp_650 sc_free_month64) = 650
  /\ strict_eq
       (netEffective (row_of Table fp_650 sc_free_month64)
        + concessionAmount (row_of Table fp_650 sc_free_month64))%js
       (grossRent (row_of Table fp_650 sc_free_month64)) = false
  /\ (netEffective (row_of Table fp_650 sc_free_month64)
      + concessionAmount (row_of Table fp_650 sc_free_month64))%js
     = PrimFloat.next_down 650.
Proof. repeat split. Qed.

(** The operators of [F64_Number], named. *)
Ltac binary64_ops :=
  cbn [jadd jsub jmul jdiv Math_max lit strict_eq jlt F64_Number] in *.

(** C8 in binary64: the identity scenario gives a net effective rent that
    is [===] to [base_rent + amenity_rent], whenever that sum is a number.
    (The two can differ in the sign of a zero.) *)
Lemma identity_scenario_keeps_rent_binary64
  (c : Copy) (fp : Floorplan float) (s : Scenario float) :
  base_rent_pct_adj s = 0 ->
  amenity_rent_pct_adj s = 0 ->
  base_rent_dollar_adj s = 0 ->
  amenity_rent_dollar_adj s = 0 ->
  concession_type s = "none"%string ->
  PrimFloat.is_nan (base_rent fp + amenity_rent fp) = false ->
  strict_eq (netEffective (row_of c fp s)) (base_rent fp + amenity_rent fp)
  = true.
Proof.
  intros Hbp Hap Hbd Had H.
  destruct (row_adjustments c fp s) as (Hb & Ha & Hg).
  destruct (row_otherwise c fp s) as [_ Hn];
    try (rewrite H; discriminate).
  binary64_ops. rewrite Hn, Hg, Hb, Ha, Hbp, Hap, Hbd, Had.
  change (f64_lit 1 + 0) with 1. rewrite !f64_mul_one.
  generalize (base_rent fp) (amenity_rent fp). clear. intros b a Hnan.
  destruct (f64_add_zero b) as [Eb | Eb];
    destruct (f64_add_zero a) as [Ea | Ea].
  - subst. reflexivity.
  - subst b. rewrite Ea. rewrite (f64_neg_zero_add a) in *.
    change (neg_zero + 0) with 0.
    destruct (f64_zero_add a) as [Ea' | Ea'].
    + subst. reflexivity.
    + rewrite Ea'. apply f64_eqb_refl, Hnan.
  - subst a. rewrite (f64_add_neg_zero b) in *.
    change (neg_zero + 0) with 0. rewrite !Eb.
    apply f64_eqb_refl, Hnan.
  - rewrite Eb, Ea. apply f64_eqb_refl, Hnan.
Qed.

(** C4 in binary64: with no free month the net effective rent is the gross
    rent and the concession is a zero; with twelve the concession is the
    gross rent and the net effective rent is a zero (for a finite gross
    rent). *)
Lemma free_months_zero_and_twelve_binary64
  (c : Copy) (fp : Floorplan float) (s : Scenario float) :
  concession_type s = "free_months"%string ->
  PrimFloat.is_finite (grossRent (row_of c fp s)) = true ->
  (concession_value s = 0 ->
   netEffective (row_of c fp s) = grossRent (row_of c fp s)
   /\ strict_eq (concessionAmount (row_of c fp s)) 0 = true)
  /\ (concession_value s = 12 ->
      concessionAmount (row_of c fp s) = grossRent (row_of c fp s)
      /\ strict_eq (netEffective (row_of c fp s)) 0 = true).
Proof.
  intros H F. destruct (row_free_months c fp s H) as [Hc Hn].
  binary64_ops. split; intros Hv; rewrite Hv in *.
  - change (0 / f64_lit 12) with 0 in Hc.
    change ((f64_lit 12 - 0) / f64_lit 12) with 1 in Hn.
    rewrite Hn, Hc, f64_mul_one. split; [reflexivity |].
    apply f64_mul_zero, F.
  - change (12 / f64_lit 12) with 1 in Hc.
    change ((f64_lit 12 - 12) / f64_lit 12) with 0 in Hn.
    rewrite Hn, Hc, f64_mul_one. split; [reflexivity |].
    apply f64_mul_zero, F.
Qed.

(** A sum of zeros of either sign, started at +0, stays +0. *)
Lemma weighted_sum_zero_binary64
  (h : Floorplan float -> float) (g : Floorplan float -> Figures float)
  (floorplans : list (Floorplan float)) :
  Forall (fun fp => h fp = 0 \/ h fp = neg_zero) floorplans ->
  fold_left (fun sum '(fp, _) => sum + h fp)
            (map (fun fp => (fp, g fp)) floorplans) 0 = 0.
Proof.
  induction 1 as [| fp fps Hfp _ IH]; [reflexivity |].
  cbn [map fold_left].
  destruct Hfp as [E | E]; rewrite E; exact IH.
Qed.

(** C6 in binary64: with every [unit_count] equal to 0 and every
    [square_footage] finite, both averages are 0; no NaN comes out of the
    zero denominators. *)
Lemma zero_units_give_zero_averages_binary64
  (floorplans : list (Floorplan float)) (s : Scenario float) :
  Forall (fun fp => unit_count fp = 0
                    /\ PrimFloat.is_finite (square_footage fp) = true)
         floorplans ->
  exists r : ScenarioResults float,
    calculateScenarioResults floorplans s = Normal r
    /\ avg_rent_per_unit r = 0
    /\ revenue_per_sqft r = 0.
Proof.
  intros Hz. unfold calculateScenarioResults.
  rewrite rows_complete. cbn [bind].
  eexists. split; [reflexivity |].
  cbn [avg_rent_per_unit revenue_per_sqft].
  binary64_ops. change (f64_lit 0) with 0.
  rewrite (weighted_sum_zero_binary64 (fun fp => unit_count fp)).
  - rewrite (weighted_sum_zero_binary64
               (fun fp => square_footage fp * unit_count fp)).
    + split; reflexivity.
    + eapply Forall_impl; [| exact Hz]. cbn beta. intros fp [Hu Hf].
      rewrite Hu. apply f64_zero_cases, f64_mul_zero, Hf.
  - eapply Forall_impl; [| exact Hz]. cbn beta. intros fp [Hu _].
    left. exact Hu.
Qed.

End Binary64.

(* ------------------------------------------------------------------ *)
(** ** The percentage and the free months branch, arithmetic by arithmetic

    What the code assigns holds in every arithmetic; what follows from it
    by algebra holds in exact arithmetic; what survives in binary64 is said
    with the condition it needs there. *)

Section BranchesInEveryArithmetic.

(** C3 (amended): in either copy, a scenario with
    [concession_type = "percentage"] and concession value [x] gets
    [concessionAmount = grossRent * (x / 100)] and
    [netEffective = grossRent - concessionAmount], for every [x] and in
    every arithmetic: nothing floors the result.  In exact arithmetic this
    net effective rent is [grossRent * (1 - x / 100)], and for [x > 100]
    it is negative when the gross rent is positive and zero when the gross
    rent is zero. *)
Theorem percentage_concession_not_floored (c : Copy) :
  (forall (num : Type) (N : Number num)
          (fp : Floorplan num) (s : Scenario num),
      concession_type s = "percentage"%string ->
      concessionAmount (row_of c fp s)
        = (grossRent (row_of c fp s) * (concession_value s / lit 100))%js
      /\ netEffective (row_of c fp s)
         = (grossRent (row_of c fp s) - concessionAmount (row_of c fp s))%js)
  /\ (forall (fp : Floorplan Q) (s : Scenario Q),
         concession_type s = "percentage"%string ->
         (netEffective (row_of c fp s)
            == grossRent (row_of c fp s) * (1 - concession_value s / 100)
          /\ (100 < concession_value s -> 0 < grossRent (row_of c fp s) ->
              netEffective (row_of c fp s) < 0)
          /\ (100 < concession_value s -> grossRent (row_of c fp s) == 0 ->
              netEffective (row_of c fp s) == 0))%Q).
Proof.
  split.
  - intros num N fp s H. exact (row_percentage c fp s H).
  - intros fp s H.
    destruct (percentage_concession_exact c fp s H) as (_ & _ & He & Hn & Hz).
    split; [exact He |]. split; [exact Hn | exact Hz].
Qed.

(** 150 percent off a gross rent of 1100, in exact arithmetic and as the
    code computes it in binary64. *)
Lemma percentage_concession_witness :
  (concession_type sc_percentage_150 = "percentage"%string
   /\ 100 < concession_value sc_percentage_150
   /\ 0 < grossRent (row_of Table fp_example sc_percentage_150)
   /\ netEffective (row_of Table fp_example sc_percentage_150) < 0)%Q
  /\ netEffective (row_of PDF fp_500 sc_percentage_7)
     = (grossRent (row_of PDF fp_500 sc_percentage_7)
        - concessionAmount (row_of PDF fp_500 sc_percentage_7))%float.
Proof.
  destruct (percentage_concession_not_floored Table) as [_ Hexact].
  destruct (percentage_concession_not_floored PDF) as [Hany _].
  destruct (Hexact fp_example sc_percentage_150 eq_refl) as (_ & Hneg & _).
  destruct (Hany float F64_Number fp_500 sc_percentage_7 eq_refl) as [_ Hn].
  split; [| exact Hn].
  split; [reflexivity |]. split; [reflexivity |]. split; [reflexivity |].
  apply Hneg; reflexivity.
Defined.

(** In binary64 the sign of the exact result can be lost: 101 percent off
    the smallest positive gross rent is a concession that rounds to the
    gross rent, and a net effective rent of 0; and with a gross rent that
    has overflowed, Infinity minus Infinity is NaN. *)
Remark percentage_over_100_in_binary64 :
  (grossRent (row_of Table fp_tiny64 sc_percentage_101_64)
     = 0x1p-1074%float
   /\ jlt 0%float (grossRent (row_of Table fp_tiny64 sc_percentage_101_64))
      = true
   /\ netEffective (row_of Table fp_tiny64 sc_percentage_101_64) = 0%float)
  /\ (grossRent (row_of Table fp_huge64 (sc_doubled64 "percentage" 101))
        = PrimFloat.infinity
      /\ PrimFloat.is_nan
           (netEffective
              (row_of Table fp_huge64 (sc_doubled64 "percentage" 101)))
         = true).
Proof. repeat split. Qed.

(** C4 (amended): in either copy, a scenario with
    [concession_type = "free_months"] and concession value [v] gets
    [concessionAmount = grossRent * (v / 12)] and
    [netEffective = grossRent * ((12 - v) / 12)], for every [v] and in
    every arithmetic: nothing clamps [v].  In exact arithmetic the net
    effective rent of a positive gross rent is negative for [v > 12] and
    above the gross rent for [v < 0]; with [v = 0] the figures are those of
    the same scenario with [concession_type = "none"], and with [v = 12]
    the net effective rent is 0.  In binary64 the last two hold, under
    [===], whenever the gross rent is finite. *)
Theorem free_months_concession (c : Copy) :
  (forall (num : Type) (N : Number num)
          (fp : Floorplan num) (s : Scenario num),
      concession_type s = "free_months"%string ->
      concessionAmount (row_of c fp s)
        = (grossRent (row_of c fp s) * (concession_value s / lit 12))%js
      /\ netEffective (row_of c fp s)
         = (grossRent (row_of c fp s)
            * ((lit 12 - concession_value s) / lit 12))%js)
  /\ (forall (fp : Floorplan Q) (s : Scenario Q),
         concession_type s = "free_months"%string ->
         ((12 < concession_value s -> 0 < grossRent (row_of c fp s) ->
           netEffective (row_of c fp s) < 0)
          /\ (concession_value s < 0 -> 0 < grossRent (row_of c fp s) ->
              grossRent (row_of c fp s) < netEffective (row_of c fp s))
          /\ (concession_value s == 0 ->
              figures_eq (row_of c fp s)
                         (row_of c fp
                            (with_concession s "none" (concession_value s))))
          /\ (concession_value s == 12 ->
              netEffective (row_of c fp s) == 0))%Q)
  /\ (forall (fp : Floorplan float) (s : Scenario float),
         concession_type s = "free_months"%string ->
         PrimFloat.is_finite (grossRent (row_of c fp s)) = true ->
         (concession_value s = 0%float ->
          adjustedBase (row_of c fp s)
            = adjustedBase (row_of c fp (with_concession s "none" 0%float))
          /\ adjustedAmenity (row_of c fp s)
             = adjustedAmenity
                 (row_of c fp (with_concession s "none" 0%float))
          /\ grossRent (row_of c fp s)
             = grossRent (row_of c fp (with_concession s "none" 0%float))
          /\ strict_eq
               (concessionAmount (row_of c fp s))
               (concessionAmount
                  (row_of c fp (with_concession s "none" 0%float)))
             = true
          /\ netEffective (row_of c fp s)
             = netEffective
                 (row_of c fp (with_concession s "none" 0%float)))
         /\ (concession_value s = 12%float ->
             strict_eq (netEffective (row_of c fp s)) 0%float = true)).
Proof.
  split; [| split].
  - intros num N fp s H. exact (row_free_months c fp s H).
  - intros fp s H.
    destruct (free_months_concession_exact c fp s H)
      as (_ & _ & Habove & Hbelow & Hzero & Htwelve).
    split; [exact Habove |]. split; [exact Hbelow |].
    split; [exact Hzero | exact Htwelve].
  - intros fp s H F.
    destruct (free_months_zero_and_twelve_binary64 c fp s H F)
      as [Hzero Htwelve].
    split.
    + intros Hv. destruct (Hzero Hv) as [Hn Hc].
      destruct (row_with_concession c fp s "none"%string 0%float)
        as (Hb' & Ha' & Hg').
      destruct (row_otherwise c fp (with_concession s "none"%string 0%float))
        as [Hc' Hn']; try discriminate.
      rewrite Hb', Ha', Hg', Hn', Hc', Hg'.
      repeat split; [exact Hc | exact Hn].
    + intros Hv. exact (proj2 (Htwelve Hv)).
Qed.

(** Twelve, no and thirteen free months on a gross rent of 1100 in exact
    arithmetic; no and twelve free months in binary64. *)
Lemma free_months_concession_witness :
  ((concession_type (sc_free_months 12) = "free_months"%string
    /\ netEffective (row_of Table fp_example (sc_free_months 12)) == 0)
   /\ figures_eq (row_of Table fp_example (sc_free_months 0))
                 (row_of Table fp_example
                    (with_concession (sc_free_months 0) "none" 0))
   /\ netEffective (row_of Table fp_example (sc_free_months 13)) < 0)%Q
  /\ (PrimFloat.is_finite
        (grossRent (row_of Table fp_example64 (sc_free_months64 12)))
      = true
      /\ strict_eq
           (netEffective (row_of Table fp_example64 (sc_free_months64 12)))
           0%float
         = true
      /\ strict_eq
           (concessionAmount
              (row_of Table fp_example64 (sc_free_months64 0)))
           (concessionAmount
              (row_of Table fp_example64
                 (with_concession (sc_free_months64 0) "none" 0%float)))
         = true).
Proof.
  destruct (free_months_concession Table) as (_ & Hexact & Hbinary).
  destruct (Hexact fp_example (sc_free_months 12) eq_refl)
    as (_ & _ & _ & H12).
  destruct (Hexact fp_example (sc_free_months 0) eq_refl)
    as (_ & _ & H0 & _).
  destruct (Hexact fp_example (sc_free_months 13) eq_refl)
    as (H13 & _).
  destruct (Hbinary fp_example64 (sc_free_months64 12) eq_refl eq_refl)
    as [_ B12].
  destruct (Hbinary fp_example64 (sc_free_months64 0) eq_refl eq_refl)
    as [B0 _].
  destruct (B0 eq_refl) as (_ & _ & _ & B0c & _).
  split.
  - split; [split; [reflexivity | apply H12; reflexivity] |].
    split; [apply H0; reflexivity | apply H13; reflexivity].
  - split; [reflexivity |]. split; [exact (B12 eq_refl) | exact B0c].
Defined.

(** In binary64 an infinite gross rent gives NaN where a finite one gives
    zero: the net effective rent for twelve free months, and the
    concession for none. *)
Remark free_months_of_infinite_gross
  (c : Copy) (fp : Floorplan float) (s : Scenario float) :
  concession_type s = "free_months"%string ->
  grossRent (row_of c fp s) = PrimFloat.infinity ->
  (concession_value s = 12%float ->
   PrimFloat.is_nan (netEffective (row_of c fp s)) = true)
  /\ (concession_value s = 0%float ->
      PrimFloat.is_nan (concessionAmount (row_of c fp s)) = true).
Proof.
  intros H G. destruct (row_free_months c fp s H) as [Hc Hn].
  split; intros Hv.
  - rewrite Hn, G, Hv. reflexivity.
  - rewrite Hc, G, Hv. reflexivity.
Qed.

(** C4, as stated, fails in binary64 on a gross rent that has overflowed:
    a base rent of 2^1023 with +100% is a gross rent of Infinity; twelve
    free months then give a net effective rent of NaN, not 0, and no free
    month gives a concession of NaN, where ["none"] gives 0. *)
Lemma free_months_of_overflowed_gross :
  (concession_type (sc_doubled64 "free_months" 12) = "free_months"%string
   /\ grossRent (row_of Table fp_huge64 (sc_doubled64 "free_months" 12))
      = PrimFloat.infinity
   /\ PrimFloat.is_nan
        (netEffective (row_of Table fp_huge64 (sc_doubled64 "free_months" 12)))
      = true
   /\ strict_eq
        (netEffective (row_of Table fp_huge64 (sc_doubled64 "free_months" 12)))
        0%float
      = false)
  /\ (PrimFloat.is_nan
        (concessionAmount
           (row_of Table fp_huge64 (sc_doubled64 "free_months" 0)))
      = true
      /\ concessionAmount (row_of Table fp_huge64 (sc_doubled64 "none" 0))
         = 0%float
      /\ strict_eq
           (concessionAmount
              (row_of Table fp_huge64 (sc_doubled64 "free_months" 0)))
           (concessionAmount (row_of Table fp_huge64 (sc_doubled64 "none" 0)))
         = false).
Proof. repeat split. Qed.

End BranchesInEveryArithmetic.

(* ------------------------------------------------------------------ *)
(** ** The file name of the PDF *)

Section FileName.

Lemma replace_whitespace_from_clean (in_run : bool) (name : list N) :
  Forall (fun c => is_whitespace c = false)
         (replace_whitespace_from in_run name).
Proof.
  revert in_run. induction name as [| c rest IH]; intros in_run; cbn.
  - constructor.
  - destruct (is_whitespace c) eqn:E.
    + destruct in_run; [apply IH | constructor; [reflexivity | apply IH]].
    + constructor; [exact E | apply IH].
Qed.

Lemma replace_whitespace_from_nothing (in_run : bool) (name : list N) :
  Forall (fun c => is_whitespace c = false) name ->
  replace_whitespace_from in_run name = name.
Proof.
  intros H. revert in_run.
  induction H as [| c rest Hc _ IH]; intros in_run; cbn.
  - reflexivity.
  - rewrite Hc, IH. reflexivity.
Qed.

(** The file name of the PDF contains no white space, whatever the name of
    the property, as long as the date part has none. *)
Theorem filename_has_no_whitespace (name date : list N) :
  Forall (fun c => is_whitespace c = false) date ->
  Forall (fun c => is_whitespace c = false) (exportToPDF_filename name date).
Proof.
  intros Hdate. unfold exportToPDF_filename, replace_whitespace.
  repeat (apply Forall_app; split);
    try exact Hdate;
    try apply replace_whitespace_from_clean;
    repeat constructor.
Qed.

(** A property name without white space goes into the file name as it
    is. *)
Theorem filename_keeps_clean_name (name date : list N) :
  Forall (fun c => is_whitespace c = false) name ->
  exportToPDF_filename name date
  = units "STU_Analysis_" ++ name ++ units "_" ++ date ++ units ".pdf".
Proof.
  intros Hname. unfold exportToPDF_filename, replace_whitespace.
  rewrite (replace_whitespace_from_nothing false name Hname). reflexivity.
Qed.

(** Replacing twice changes nothing more, and never makes the name
    longer. *)
Theorem replace_whitespace_idempotent (name : list N) :
  replace_whitespace (replace_whitespace name) = replace_whitespace name
  /\ (List.length (replace_whitespace name) <= List.length name)%nat.
Proof.
  split.
  - unfold replace_whitespace at 1.
    apply replace_whitespace_from_nothing, replace_whitespace_from_clean.
  - unfold replace_whitespace. generalize false.
    induction name as [| c rest IH]; intros in_run; cbn; [lia |].
    destruct (is_whitespace c); [destruct in_run |];
      cbn; [specialize (IH true) | specialize (IH true)
            | specialize (IH false)]; lia.
Qed.

(** "Oak  Park\tTower" (two spaces, then a tab) on 2025-01-31. *)
Lemma filename_has_no_whitespace_witness :
  Forall (fun c => is_whitespace c = false) (units "2025-01-31")
  /\ Forall (fun c => is_whitespace c = false)
            (exportToPDF_filename
               (units "Oak  Park" ++ [9%N] ++ units "Tower")
               (units "2025-01-31"))
  /\ exportToPDF_filename
       (units "Oak  Park" ++ [9%N] ++ units "Tower") (units "2025-01-31")
     = units "STU_Analysis_Oak_Park_Tower_2025-01-31.pdf".
Proof.
  assert (H : Forall (fun c => is_whitespace c = false)
                     (units "2025-01-31")) by (repeat constructor).
  split; [exact H |]. split; [| reflexivity].
  exact (filename_has_no_whitespace
           (units "Oak  Park" ++ [9%N] ++ units "Tower")
           (units "2025-01-31") H).
Defined.

Lemma filename_keeps_clean_name_witness :
  Forall (fun c => is_whitespace c = false) (units "Riverside")
  /\ exportToPDF_filename (units "Riverside") (units "2025-01-31")
     = units "STU_Analysis_" ++ units "Riverside" ++ units "_"
       ++ units "2025-01-31" ++ units ".pdf".
Proof.
  assert (H : Forall (fun c => is_whitespace c = false) (units "Riverside"))
    by (repeat constructor).
  split; [exact H |].
  exact (filename_keeps_clean_name (units "Riverside") (units "2025-01-31") H).
Defined.

End FileName.

(* ------------------------------------------------------------------ *)
(** ** The state of the component *)

Section State.

Context {num : Type} {N : Number num}.

(** The scenario that the on-screen breakdown is computed from has the id
    of the scenario of the active tab, edited or not. *)
Theorem currentScenario_keeps_id
  (editingScenario : option (Scenario num)) (active : Scenario num) :
  sc_id (App_currentScenario editingScenario active) = sc_id active.
Proof.
  unfold App_currentScenario. destruct editingScenario as [e |]; [| reflexivity].
  destruct (sc_id e =? sc_id active)%string eqn:E; [| reflexivity].
  apply String.eqb_eq, E.
Qed.

(** After a save or a reset the list holds the same ids in the same
    order, so every tab still shows the scenario it showed. *)
Theorem replaceScenario_keeps_ids
  (calculated : Scenario num) (prev : list (Scenario num)) :
  map (fun s => sc_id s) (App_replaceScenario calculated prev)
  = map (fun s => sc_id s) prev.
Proof.
  unfold App_replaceScenario. rewrite map_map. apply map_ext.
  intros s. destruct (sc_id s =? sc_id calculated)%string eqn:E;
    [| reflexivity].
  symmetry. apply String.eqb_eq, E.
Qed.

(** A calculated scenario whose id is not in the list changes nothing. *)
Theorem replaceScenario_unknown_id
  (calculated : Scenario num) (prev : list (Scenario num)) :
  (forall s, In s prev -> sc_id s <> sc_id calculated) ->
  App_replaceScenario calculated prev = prev.
Proof.
  intros H. unfold App_replaceScenario.
  rewrite <- (map_id prev) at 2. apply map_ext_in.
  intros s Hs. apply H in Hs. apply String.eqb_neq in Hs.
  rewrite Hs. reflexivity.
Qed.

(** After the update every scenario of the list with the id of the
    calculated one is the calculated one (all of them, should the id occur
    more than once), and every other scenario was in the list before. *)
Theorem replaceScenario_replaces_every_match
  (calculated : Scenario num) (prev : list (Scenario num))
  (s : Scenario num) :
  In s (App_replaceScenario calculated prev) ->
  (sc_id s = sc_id calculated -> s = calculated)
  /\ (sc_id s <> sc_id calculated -> In s prev).
Proof.
  unfold App_replaceScenario. intros H. apply in_map_iff in H.
  destruct H as (s0 & E & Hin).
  destruct (sc_id s0 =? sc_id calculated)%string eqn:E0.
  - subst s. split; [reflexivity | congruence].
  - subst s0. split; [| intros _; exact Hin].
    intros Hid. apply String.eqb_neq in E0. contradiction.
Qed.

(** With a property selected, the filtered analyses are the analyses of
    that property, the selected analysis is one of them, and no analysis
    is selected only when the property has none. *)
Theorem filterEffect_selects_within_property
  (p : Property num) (analyses : list (Analysis num))
  (selectedAnalysis : option (Analysis num)) :
  (forall a,
      In a (fst (App_filterEffect (Some p) analyses selectedAnalysis))
      <-> In a analyses /\ an_property_id a = pr_id p)
  /\ (forall a,
         snd (App_filterEffect (Some p) analyses selectedAnalysis) = Some a ->
         In a analyses /\ an_property_id a = pr_id p)
  /\ (snd (App_filterEffect (Some p) analyses selectedAnalysis) = None
      <-> forall a, In a analyses -> an_property_id a <> pr_id p).
Proof.
  cbn [App_filterEffect fst snd].
  set (keep := fun a : Analysis num => (an_property_id a =? pr_id p)%string).
  assert (Hin : forall a, In a (filter keep analyses)
                          <-> In a analyses /\ an_property_id a = pr_id p).
  { intros a. rewrite filter_In. unfold keep. now rewrite String.eqb_eq. }
  split; [exact Hin |]. split.
  - intros a Ha. apply Hin.
    destruct (filter keep analyses) as [| a0 rest]; [discriminate |].
    injection Ha as ->. left. reflexivity.
  - split.
    + intros Hnone a Ha Hid.
      destruct (filter keep analyses) as [| a0 rest]; [| discriminate].
      exact (proj2 (Hin a) (conj Ha Hid)).
    + intros Hall.
      destruct (filter keep analyses) as [| a0 rest]; [reflexivity |].
      destruct (proj1 (Hin a0) (or_introl eq_refl)) as [Ha0 Hid0].
      exfalso. exact (Hall a0 Ha0 Hid0).
Qed.

(** The selected analysis, when the property has one, is the first of its
    analyses in the order of the list. *)
Theorem filterEffect_selects_first
  (p : Property num) (before after : list (Analysis num)) (a : Analysis num)
  (selectedAnalysis : option (Analysis num)) :
  (forall b, In b before -> an_property_id b <> pr_id p) ->
  an_property_id a = pr_id p ->
  snd (App_filterEffect (Some p) (before ++ a :: after) selectedAnalysis)
  = Some a.
Proof.
  intros Hbefore Ha. cbn [App_filterEffect snd].
  rewrite filter_app.
  assert (E : filter (fun a0 => (an_property_id a0 =? pr_id p)%string) before
              = []).
  { induction before as [| b rest IH]; [reflexivity |].
    cbn. assert (Hb : an_property_id b <> pr_id p)
      by (apply Hbefore; now left).
    apply String.eqb_neq in Hb. rewrite Hb.
    apply IH. intros b0 Hb0. apply Hbefore. now right. }
  rewrite E. cbn. apply String.eqb_eq in Ha. rewrite Ha. reflexivity.
Qed.

Lemma Promise_all_fulfilled {A : Type}
  (promises : list (Settled A)) (values : list A) :
  Promise_all promises = Fulfilled values
  <-> Forall2 (fun promise value => promise = Fulfilled value)
              promises values.
Proof.
  revert values. induction promises as [| [a |] rest IH]; intros values; cbn.
  - split.
    + intros H. injection H as <-. constructor.
    + intros H. inversion H. reflexivity.
  - split.
    + destruct (Promise_all rest) as [vs |] eqn:E; [| discriminate].
      intros H. injection H as <-. constructor; [reflexivity |].
      apply IH. reflexivity.
    + intros H. inversion H as [| ? v ? vs Hv Hrest]; subst.
      injection Hv as <-. apply IH in Hrest. rewrite Hrest. reflexivity.
  - split; [discriminate |]. intros H. inversion H; discriminate.
Qed.

Lemma Promise_all_rejected {A : Type} (promises : list (Settled A)) :
  In Rejected promises -> Promise_all promises = Rejected.
Proof.
  induction promises as [| [a |] rest IH]; cbn; intros H.
  - contradiction.
  - destruct H as [H | H]; [discriminate |]. rewrite (IH H). reflexivity.
  - reflexivity.
Qed.

(** [calculateAllScenarios] is fulfilled exactly when every calculation is,
    and then with one calculated scenario for each scenario of the
    analysis, in their order. *)
Theorem calculateAllScenarios_fulfilled
  (calculate : string -> Settled (Scenario num)) (analysis : Analysis num)
  (calculated : list (Scenario num)) :
  calculateAllScenarios calculate analysis = Fulfilled calculated
  <-> Forall2 (fun scenario result =>
                 calculate (sc_id scenario) = Fulfilled result)
              (an_scenarios analysis) calculated.
Proof.
  unfold calculateAllScenarios. rewrite Promise_all_fulfilled.
  generalize (an_scenarios analysis). intros l. revert calculated.
  induction l as [| s rest IH]; intros calculated; cbn.
  - split; intros H; inversion H; constructor.
  - split; intros H; inversion H; subst; constructor;
      try assumption; apply IH; assumption.
Qed.

(** One calculation that fails discards the whole batch: the scenarios on
    screen stay those of before. *)
Theorem calculateScenarios_keeps_state_on_rejection
  (calculate : string -> Settled (Scenario num)) (analysis : Analysis num)
  (scenarios : list (Scenario num)) (failing : Scenario num) :
  In failing (an_scenarios analysis) ->
  calculate (sc_id failing) = Rejected ->
  App_calculateScenarios calculate (Some analysis) scenarios = scenarios.
Proof.
  intros Hin Hfail. unfold App_calculateScenarios, calculateAllScenarios.
  rewrite Promise_all_rejected; [reflexivity |].
  rewrite <- Hfail.
  apply (in_map (fun scenario => calculate (sc_id scenario))). exact Hin.
Qed.

End State.

(* ------------------------------------------------------------------ *)
(** ** The tables, the chart and the form *)

Section Tables.

Context {num : Type} {N : Number num} {Fm : Formatting num}.
Local Open Scope string_scope.

Lemma floorplanTr_content (fp : Floorplan num) (s : Scenario num) :
  map (fun td => content td) (App_floorplanTr fp s)
  = exportToPDF_floorplanRow fp s.
Proof. reflexivity. Qed.

Lemma sensitivityTr_content (s : Scenario num) :
  map (fun td => content td) (App_sensitivityTr s)
  = exportToPDF_scenarioRow s.
Proof. reflexivity. Qed.

Lemma currentScenario_not_edited
  (editingScenario : option (Scenario num)) (active : Scenario num) :
  (forall e, editingScenario = Some e -> sc_id e <> sc_id active) ->
  App_currentScenario editingScenario active = active.
Proof.
  intros H. unfold App_currentScenario.
  destruct editingScenario as [e |]; [| reflexivity].
  specialize (H e eq_refl). apply String.eqb_neq in H. rewrite H.
  reflexivity.
Qed.

(** The two tables of the PDF against the two tables of the screen, in
    every state of the component.  Unless the scenario of the active tab
    is being edited, the first table of an export has the contents of the
    rows of the on-screen breakdown, cell by cell, once the page has
    loaded.  Its second table has those of the on-screen sensitivity table
    when no calculation is running; during a calculation the screen shows
    no sensitivity table, and the export writes one all the same.  When
    the export throws, the screen shows no breakdown; when it returns at
    its guard, the screen shows neither table. *)
Theorem pdf_tables_show_the_screen
  (loading calculating : bool)
  (selectedProperty : option (Property num))
  (selectedAnalysis : option (Analysis num))
  (scenarios : list (Scenario num))
  (activeTab : nat) (editingScenario : option (Scenario num)) :
  (forall e active,
      editingScenario = Some e ->
      nth_error scenarios activeTab = Some active ->
      sc_id e <> sc_id active) ->
  match exportToPDF selectedProperty selectedAnalysis scenarios activeTab with
  | Exported floorplanData scenarioData =>
      option_map (map (map (fun td => content td)))
                 (App_floorplanRows loading selectedProperty selectedAnalysis
                                    scenarios activeTab editingScenario)
      = (if loading then None else Some floorplanData)
      /\ option_map (map (map (fun td => content td)))
                    (App_sensitivityRows loading selectedProperty
                                         selectedAnalysis calculating scenarios)
         = (if (loading || calculating)%bool then None else Some scenarioData)
  | TypeErrorThrown =>
      App_floorplanRows loading selectedProperty selectedAnalysis
                        scenarios activeTab editingScenario
      = None
      /\ option_map (map (map (fun td => content td)))
                    (App_sensitivityRows loading selectedProperty
                                         selectedAnalysis calculating scenarios)
         = (if (loading || calculating)%bool then None
            else Some (map exportToPDF_scenarioRow scenarios))
  | NotExported =>
      App_floorplanRows loading selectedProperty selectedAnalysis
                        scenarios activeTab editingScenario
      = None
      /\ App_sensitivityRows loading selectedProperty selectedAnalysis
                             calculating scenarios
         = None
  end.
Proof.
  intros H. unfold exportToPDF, App_floorplanRows, App_sensitivityRows.
  assert (Hs : map (map (fun td : Td num => content td))
                   (map App_sensitivityTr scenarios)
               = map exportToPDF_scenarioRow scenarios).
  { rewrite map_map. apply map_ext. intros s. apply sensitivityTr_content. }
  destruct selectedProperty as [p |];
    [| destruct loading; split; reflexivity].
  destruct selectedAnalysis as [a |];
    [| destruct loading; split; reflexivity].
  destruct (nth_error scenarios activeTab) as [active |].
  - rewrite currentScenario_not_edited
      by (intros e He; exact (H e active He eq_refl)).
    destruct loading; [split; reflexivity |].
    split.
    + cbn [option_map]. f_equal. rewrite map_map. apply map_ext.
      intros fp. apply floorplanTr_content.
    + destruct calculating; [reflexivity |].
      cbn [orb option_map]. f_equal. exact Hs.
  - destruct loading; [split; reflexivity |].
    split; [reflexivity |].
    destruct calculating; [reflexivity |].
    cbn [orb option_map]. f_equal. exact Hs.
Qed.

(** While the scenario of the active tab is being edited, the breakdown
    that the dashboard shows is computed from the edited copy alone, and
    the first table of an export from the saved scenario. *)
Theorem breakdown_follows_the_edit
  (p : Property num) (a : Analysis num)
  (scenarios : list (Scenario num)) (activeTab : nat)
  (e active : Scenario num) :
  nth_error scenarios activeTab = Some active ->
  sc_id e = sc_id active ->
  App_floorplanRows false (Some p) (Some a) scenarios activeTab (Some e)
  = Some (map (fun fp => App_floorplanTr fp e) (pr_floorplans p))
  /\ exportToPDF (Some p) (Some a) scenarios activeTab
     = Exported
         (map (fun fp => exportToPDF_floorplanRow fp active)
              (pr_floorplans p))
         (map exportToPDF_scenarioRow scenarios).
Proof.
  intros Hnth Hid.
  unfold App_floorplanRows, exportToPDF, App_currentScenario.
  rewrite Hnth. apply String.eqb_eq in Hid. rewrite Hid.
  split; reflexivity.
Qed.

(** With a property and an analysis selected, the export throws exactly
    when the active tab lies beyond the scenarios, which a non-empty list
    (an enabled export button) does not exclude. *)
Theorem exportToPDF_throws_beyond_the_tabs
  (p : Property num) (a : Analysis num) (scenarios : list (Scenario num))
  (activeTab : nat) :
  exportToPDF (Some p) (Some a) scenarios activeTab = TypeErrorThrown
  <-> (List.length scenarios <= activeTab)%nat.
Proof.
  unfold exportToPDF. rewrite <- nth_error_None.
  destruct (nth_error scenarios activeTab); split; intros H;
    try discriminate; reflexivity.
Qed.

(** Every row of the two tables of the PDF has as many cells as its head
    has columns, and the tables have one row for each floorplan and one
    for each scenario. *)
Theorem exported_tables_fit_their_heads
  (selectedProperty : option (Property num))
  (selectedAnalysis : option (Analysis num))
  (scenarios : list (Scenario num)) (activeTab : nat)
  (floorplanData scenarioData : list (list (Cell num))) :
  exportToPDF selectedProperty selectedAnalysis scenarios activeTab
  = Exported floorplanData scenarioData ->
  Forall (fun row => List.length row = List.length exportToPDF_floorplanHead)
         floorplanData
  /\ Forall (fun row => List.length row = List.length exportToPDF_scenarioHead)
            scenarioData
  /\ (exists p, selectedProperty = Some p
                /\ List.length floorplanData = List.length (pr_floorplans p))
  /\ List.length scenarioData = List.length scenarios.
Proof.
  unfold exportToPDF.
  destruct selectedProperty as [p |]; [| discriminate].
  destruct selectedAnalysis as [a |]; [| discriminate].
  destruct (nth_error scenarios activeTab) as [s |]; [| discriminate].
  intros H. injection H as <- <-.
  split; [| split; [| split]].
  - apply Forall_forall. intros row Hrow. apply in_map_iff in Hrow.
    destruct Hrow as (fp & <- & _). reflexivity.
  - apply Forall_forall. intros row Hrow. apply in_map_iff in Hrow.
    destruct Hrow as (s0 & <- & _). reflexivity.
  - exists p. split; [reflexivity | apply length_map].
  - apply length_map.
Qed.

(** In both comparison tables, the base rent cell of a scenario whose
    percentage adjustment is not zero shows that percentage alone: two
    scenarios of the list with the same percentage show the same cell,
    whatever their dollar adjustments, which the calculation adds, and
    whatever their results. *)
Theorem comparison_row_hides_the_dollar_adjustment (s1 s2 : Scenario num) :
  strict_eq (base_rent_pct_adj s1) (lit 0) = false ->
  base_rent_pct_adj s2 = base_rent_pct_adj s1 ->
  nth_error (exportToPDF_scenarioRow s1) 1
  = Some (Text (formatPercent (base_rent_pct_adj s1)))
  /\ nth_error (exportToPDF_scenarioRow s2) 1
     = nth_error (exportToPDF_scenarioRow s1) 1
  /\ nth_error (App_sensitivityTr s2) 1
     = nth_error (App_sensitivityTr s1) 1.
Proof.
  intros H E. unfold exportToPDF_scenarioRow, App_sensitivityTr.
  cbn [nth_error]. rewrite E, H. cbn [negb].
  split; [| split]; reflexivity.
Qed.

(** The comparison row does not tell the concession types apart, except
    ["none"] and ["free_months"]: a percentage of 10 and 10 dollars give
    the same row. *)
Theorem comparison_row_confuses_concession_types
  (s : Scenario num) (ctype1 ctype2 : string) (cvalue : num) :
  ctype1 <> "none" -> ctype1 <> "free_months" ->
  ctype2 <> "none" -> ctype2 <> "free_months" ->
  exportToPDF_scenarioRow (with_concession s ctype1 cvalue)
  = exportToPDF_scenarioRow (with_concession s ctype2 cvalue).
Proof.
  intros H1 H1' H2 H2'. apply String.eqb_neq in H1, H1', H2, H2'.
  unfold exportToPDF_scenarioRow.
  cbn [with_concession sc_name base_rent_pct_adj base_rent_dollar_adj
       amenity_rent_pct_adj amenity_rent_dollar_adj concession_type
       concession_value results].
  rewrite H1, H1', H2, H2'. reflexivity.
Qed.

Lemma or_zero_is_a_number (x : num) :
  strict_eq (lit 0) (lit 0) = true ->
  strict_eq (or_zero x) (or_zero x) = true.
Proof.
  intros H0. unfold or_zero.
  destruct (falsy x) eqn:F; [exact H0 |].
  unfold falsy in F. apply orb_false_elim in F. destruct F as [_ F].
  apply negb_false_iff in F. exact F.
Qed.

(** The chart has one label and one value for each scenario, and no value
    is NaN: a missing result, a revenue of zero and a revenue of NaN all
    give 0. *)
Theorem chart_data_has_no_NaN (scenarios : list (Scenario num)) :
  strict_eq (lit 0) (lit 0) = true ->
  Forall (fun x => strict_eq x x = true) (App_chartData_data scenarios)
  /\ List.length (App_chartData_data scenarios)
     = List.length (App_chartData_labels scenarios).
Proof.
  intros H0. split.
  - unfold App_chartData_data. apply Forall_forall. intros x Hx.
    apply in_map_iff in Hx. destruct Hx as (s & <- & _).
    destruct (results s) as [r |]; [apply or_zero_is_a_number |]; exact H0.
  - unfold App_chartData_data, App_chartData_labels.
    rewrite !length_map. reflexivity.
Qed.

(** Whatever is typed into the number fields of the edit form, none of the
    five numbers it stores is NaN. *)
Theorem edit_form_stores_no_NaN (s : Scenario num) (parsed : num) :
  strict_eq (lit 0) (lit 0) = true ->
  strict_eq (base_rent_pct_adj (onChange_base_rent_pct_adj s parsed))
            (base_rent_pct_adj (onChange_base_rent_pct_adj s parsed)) = true
  /\ strict_eq
       (base_rent_dollar_adj (onChange_base_rent_dollar_adj s parsed))
       (base_rent_dollar_adj (onChange_base_rent_dollar_adj s parsed)) = true
  /\ strict_eq
       (amenity_rent_pct_adj (onChange_amenity_rent_pct_adj s parsed))
       (amenity_rent_pct_adj (onChange_amenity_rent_pct_adj s parsed)) = true
  /\ strict_eq
       (amenity_rent_dollar_adj (onChange_amenity_rent_dollar_adj s parsed))
       (amenity_rent_dollar_adj (onChange_amenity_rent_dollar_adj s parsed))
     = true
  /\ strict_eq (concession_value (onChange_concession_value s parsed))
               (concession_value (onChange_concession_value s parsed)) = true.
Proof.
  intros H0. repeat split; apply or_zero_is_a_number; exact H0.
Qed.

End Tables.

(* ------------------------------------------------------------------ *)
(** ** The breakdown after a reset and after a change of concession type,
       in binary64 *)

(** The operators of [F64_Number], named, in the goal and the context. *)
Ltac f64_ops :=
  cbn [jadd jsub jmul jdiv Math_max lit strict_eq jlt F64_Number] in *.

Section Binary64Form.

Local Open Scope float_scope.

(** Subtracting [+0] changes nothing. *)
Lemma f64_sub_zero (x : float) : x - 0 = x.
Proof.
  apply Prim2SF_inj. rewrite sub_spec.
  change (Prim2SF 0) with (S754_zero false).
  destruct (Prim2SF x) as [[|] | s | | s m e]; reflexivity.
Qed.

(** Subtracting [-0] gives a number [===] to the one before. *)
Lemma f64_sub_neg_zero (x : float) :
  PrimFloat.is_nan x = false -> (x - neg_zero =? x) = true.
Proof.
  intros Hx. destruct (Prim2SF x) as [[|] | s | | s m e] eqn:E.
  - assert (Ex : x = neg_zero)
      by (apply Prim2SF_inj; rewrite E; reflexivity).
    subst x. reflexivity.
  - replace (x - neg_zero) with x; [apply f64_eqb_refl, Hx |].
    apply Prim2SF_inj. rewrite sub_spec, E. reflexivity.
  - replace (x - neg_zero) with x; [apply f64_eqb_refl, Hx |].
    apply Prim2SF_inj. rewrite sub_spec, E. reflexivity.
  - replace (x - neg_zero) with x; [apply f64_eqb_refl, Hx |].
    apply Prim2SF_inj. rewrite sub_spec, E. reflexivity.
  - replace (x - neg_zero) with x; [apply f64_eqb_refl, Hx |].
    apply Prim2SF_inj. rewrite sub_spec, E. reflexivity.
Qed.

Lemma f64_finite_is_a_number (x : float) :
  PrimFloat.is_finite x = true -> PrimFloat.is_nan x = false.
Proof.
  unfold PrimFloat.is_finite. destruct (PrimFloat.is_nan x);
    [discriminate | reflexivity].
Qed.

(** [x + 0] is [===] to [x]. *)
Lemma f64_add_zero_eqb (x : float) :
  PrimFloat.is_nan x = false -> (x + 0 =? x) = true.
Proof.
  intros Hx. destruct (f64_add_zero x) as [E | E].
  - subst x. reflexivity.
  - rewrite E. apply f64_eqb_refl, Hx.
Qed.

(** [Math.max(0, x)] is [===] to [x] when [x] is a number not below 0. *)
Lemma f64_Math_max_zero (x : float) :
  PrimFloat.is_nan x = false -> (x <? 0) = false ->
  (f64_Math_max 0 x =? x) = true.
Proof.
  intros Hnan Hlt. unfold f64_Math_max.
  change (PrimFloat.is_nan 0) with false. rewrite Hnan. cbn [orb].
  destruct (0 <? x) eqn:Hpos; [apply f64_eqb_refl, Hnan |].
  rewrite Hlt.
  change (PrimFloat.is_zero 0 && PrimFloat.get_sign 0)%bool with false.
  cbn match.
  rewrite FloatAxioms.eqb_spec.
  rewrite ltb_spec in Hpos, Hlt.
  unfold PrimFloat.is_nan in Hnan. rewrite FloatAxioms.eqb_spec in Hnan.
  change (Prim2SF 0) with (S754_zero false) in *.
  destruct (Prim2SF x) as [[|] | [|] | | [|] m e];
    cbn in *; try reflexivity; discriminate.
Qed.

Context {Fm : Formatting float}.

Variables (c : Copy) (fp : Floorplan float) (s : Scenario float).

(** Right after the concession type is changed in the edit form, the
    concession of every row with a finite gross rent is a zero, and the
    net effective rent is [===] to the gross rent, unless the new type is
    ["dollar"] and the gross rent is below 0. *)
Theorem concession_type_change_clears_the_concession (value : string) :
  PrimFloat.is_finite
    (grossRent (row_of c fp (onChange_concession_type s value))) = true ->
  strict_eq
    (concessionAmount (row_of c fp (onChange_concession_type s value))) 0
  = true
  /\ (value <> "dollar"%string
      \/ jlt (grossRent (row_of c fp (onChange_concession_type s value))) 0
         = false ->
      strict_eq
        (netEffective (row_of c fp (onChange_concession_type s value)))
        (grossRent (row_of c fp (onChange_concession_type s value)))
      = true).
Proof.
  unfold onChange_concession_type.
  set (s' := with_concession s value (lit 0)).
  set (g := grossRent (row_of c fp s')). intros F.
  assert (Hnan : PrimFloat.is_nan g = false)
    by (apply f64_finite_is_a_number, F).
  assert (Hz : (g * 0 =? 0) = true) by (apply f64_mul_zero, F).
  assert (Ht : concession_type s' = value) by reflexivity.
  assert (Hv : concession_value s' = 0) by reflexivity.
  destruct (string_dec value "percentage") as [Ep | Np];
    [| destruct (string_dec value "dollar") as [Ed | Nd];
       [| destruct (string_dec value "free_months") as [Ef | Nf]]].
  - rewrite Ep in Ht. destruct (row_percentage c fp s' Ht) as [Hc Hn].
    f64_ops. rewrite Hv in Hc. fold g in Hc, Hn.
    change (0 / f64_lit 100) with 0 in Hc.
    rewrite Hn, Hc. split; [exact Hz |]. intros _.
    destruct (f64_zero_cases _ Hz) as [E | E]; rewrite E.
    + rewrite f64_sub_zero. apply f64_eqb_refl, Hnan.
    + apply f64_sub_neg_zero, Hnan.
  - rewrite Ed in Ht. destruct (row_dollar c fp s' Ht) as [Hc Hn].
    f64_ops. rewrite Hv in Hc, Hn. fold g in Hn.
    rewrite Hn, Hc. split; [reflexivity |].
    intros [Hd | Hlt]; [contradiction |].
    change (f64_lit 0) with 0. rewrite f64_sub_zero.
    apply f64_Math_max_zero; assumption.
  - rewrite Ef in Ht. destruct (row_free_months c fp s' Ht) as [Hc Hn].
    f64_ops. rewrite Hv in Hc, Hn. fold g in Hc, Hn.
    change (0 / f64_lit 12) with 0 in Hc.
    change ((f64_lit 12 - 0) / f64_lit 12) with 1 in Hn.
    rewrite Hn, Hc, f64_mul_one. split; [exact Hz |]. intros _.
    apply f64_eqb_refl, Hnan.
  - destruct (row_otherwise c fp s') as [Hc Hn]; try (rewrite Ht; assumption).
    f64_ops. fold g in Hn. rewrite Hn, Hc.
    split; [reflexivity |]. intros _. apply f64_eqb_refl, Hnan.
Qed.

(** For the scenario that a reset asks for (all four adjustments 0, no
    concession) the on-screen row of a floorplan whose rents are numbers
    marks nothing: no cell is [adjusted], the concession cell is not
    [concession] and shows ["-"]. *)
Theorem reset_scenario_marks_nothing :
  base_rent_pct_adj s = 0 ->
  base_rent_dollar_adj s = 0 ->
  amenity_rent_pct_adj s = 0 ->
  amenity_rent_dollar_adj s = 0 ->
  concession_type s = "none"%string ->
  PrimFloat.is_nan (base_rent fp) = false ->
  PrimFloat.is_nan (amenity_rent fp) = false ->
  map (fun td => className td) (App_floorplanTr fp s)
  = [ None; None; None; None; None; Some ""%string; None; Some ""%string;
      Some "gross-rent"%string; Some ""%string; Some "net-effective"%string ]
  /\ map (fun td => content td) (App_floorplanTr fp s)
     = [ Text (fp_name fp); Text (unit_type fp); Num (unit_count fp);
         Text (Number_toLocaleString (square_footage fp));
         Text (formatCurrency (base_rent fp));
         Text (formatCurrency (adjustedBase (App_row fp s)));
         Text (formatCurrency (amenity_rent fp));
         Text (formatCurrency (adjustedAmenity (App_row fp s)));
         Text (formatCurrency (grossRent (App_row fp s)));
         Text "-"%string;
         Text (formatCurrency (netEffective (App_row fp s))) ].
Proof.
  intros Hbp Hbd Hap Had Hnone Hb Ha.
  destruct (row_adjustments Table fp s) as (Eb & Ea & _).
  destruct (row_otherwise Table fp s) as [Ec _];
    try (rewrite Hnone; discriminate).
  cbn [row_of] in Eb, Ea, Ec. f64_ops.
  rewrite Hbp, Hbd in Eb. rewrite Hap, Had in Ea.
  change (f64_lit 1 + 0) with 1 in Eb, Ea.
  rewrite f64_mul_one in Eb, Ea.
  unfold App_floorplanTr. cbn [map className content].
  f64_ops. rewrite Ec.
  change (f64_lit 0 <? f64_lit 0) with false. cbn match.
  rewrite Eb at 1. rewrite Ea at 1.
  rewrite (f64_add_zero_eqb _ Hb), (f64_add_zero_eqb _ Ha).
  cbn [negb]. split; reflexivity.
Qed.

End Binary64Form.

(* ------------------------------------------------------------------ *)
(** ** The component at sample states *)

Section ComponentSamples.

Local Open Scope string_scope.

(** The backend answers for an id that is not in the list. *)
Lemma replaceScenario_unknown_id_witness :
  (forall s, In s [sc_a; sc_b] -> sc_id s <> sc_id sc_z)
  /\ App_replaceScenario sc_z [sc_a; sc_b] = [sc_a; sc_b].
Proof.
  assert (H : forall s, In s [sc_a; sc_b] -> sc_id s <> sc_id sc_z).
  { intros s [<- | [<- | []]]; discriminate. }
  split; [exact H |].
  exact (replaceScenario_unknown_id sc_z [sc_a; sc_b] H).
Defined.

(** The edited [sc_b] is saved: the entry with its id is the saved one,
    [sc_a] is the one of before. *)
Lemma replaceScenario_replaces_every_match_witness :
  In sc_b_edited (App_replaceScenario sc_b_edited [sc_a; sc_b])
  /\ In sc_a (App_replaceScenario sc_b_edited [sc_a; sc_b])
  /\ In sc_a [sc_a; sc_b].
Proof.
  assert (He : In sc_b_edited (App_replaceScenario sc_b_edited [sc_a; sc_b]))
    by (right; left; reflexivity).
  assert (Ha : In sc_a (App_replaceScenario sc_b_edited [sc_a; sc_b]))
    by (left; reflexivity).
  split; [exact He |]. split; [exact Ha |].
  apply (replaceScenario_replaces_every_match
           sc_b_edited [sc_a; sc_b] sc_a Ha).
  discriminate.
Defined.

(** Property "p-1" with an analysis of another property listed first. *)
Lemma filterEffect_selects_first_witness :
  an_property_id analysis_1 = pr_id property_1
  /\ snd (App_filterEffect (Some property_1)
            ([analysis_2] ++ analysis_1 :: [analysis_1b]) None)
     = Some analysis_1.
Proof.
  split; [reflexivity |].
  apply (filterEffect_selects_first
           property_1 [analysis_2] [analysis_1b] analysis_1 None).
  - intros b [<- | []]. discriminate.
  - reflexivity.
Defined.

(** The second of two calculations fails. *)
Lemma calculateScenarios_keeps_state_witness :
  In sc_b (an_scenarios analysis_1)
  /\ calculate_failing_on_b (sc_id sc_b) = Rejected
  /\ App_calculateScenarios calculate_failing_on_b (Some analysis_1) [sc_z]
     = [sc_z].
Proof.
  assert (Hin : In sc_b (an_scenarios analysis_1))
    by (right; left; reflexivity).
  split; [exact Hin |]. split; [reflexivity |].
  exact (calculateScenarios_keeps_state_on_rejection
           calculate_failing_on_b analysis_1 [sc_z] sc_b Hin eq_refl).
Defined.

(** Two calculated scenarios, the second tab active, nothing being
    edited: outside a calculation both tables of the PDF are on the
    screen; during one, the sensitivity table is not. *)
Lemma pdf_tables_show_the_screen_witness :
  exists floorplanData scenarioData,
    exportToPDF (Fm := fraction_formatting)
                (Some property_1) (Some analysis_1)
                [sc_b_calculated; sc_c_calculated] 1
    = Exported floorplanData scenarioData
    /\ option_map (map (map (fun td => content td)))
                  (App_floorplanRows (Fm := fraction_formatting)
                     false (Some property_1) (Some analysis_1)
                     [sc_b_calculated; sc_c_calculated] 1 None)
       = Some floorplanData
    /\ option_map (map (map (fun td => content td)))
                  (App_sensitivityRows (Fm := fraction_formatting)
                     false (Some property_1) (Some analysis_1) false
                     [sc_b_calculated; sc_c_calculated])
       = Some scenarioData
    /\ option_map (map (map (fun td => content td)))
                  (App_sensitivityRows (Fm := fraction_formatting)
                     false (Some property_1) (Some analysis_1) true
                     [sc_b_calculated; sc_c_calculated])
       = None
    /\ nth_error floorplanData 0
       = Some [Text "A1"; Text "1BR"; Num 10; Text "750/1";
               Text "$1000/1"; Text "$1450/1"; Text "$100/1"; Text "$100/1";
               Text "$1550/1"; Text "-$50/1"; Text "$1500/1"]
    /\ nth_error scenarioData 1
       = Some [Text "Scenario"; Text "5/1%"; Text "-"; Text "50/1";
               Text "$372000/1"; Text "$750/1"; Text "$1/1"; Text "$750/1"].
Proof.
  assert (Hedit : forall e active : Scenario Q,
             @None (Scenario Q) = Some e ->
             nth_error [sc_b_calculated; sc_c_calculated] 1 = Some active ->
             sc_id e <> sc_id active)
    by (intros e active He; discriminate He).
  pose proof (pdf_tables_show_the_screen
                (Fm := fraction_formatting) false false
                (Some property_1) (Some analysis_1)
                [sc_b_calculated; sc_c_calculated] 1 None Hedit) as H.
  pose proof (pdf_tables_show_the_screen
                (Fm := fraction_formatting) false true
                (Some property_1) (Some analysis_1)
                [sc_b_calculated; sc_c_calculated] 1 None Hedit) as H'.
  cbn [exportToPDF nth_error orb] in H, H' |- *.
  destruct H as [Hb Hs]. destruct H' as [_ Hs'].
  eexists. eexists. split; [reflexivity |].
  split; [exact Hb |]. split; [exact Hs |]. split; [exact Hs' |].
  split; reflexivity.
Defined.

(** [sc_b] is being edited on the second tab, +7% in place of +5%: the
    screen shows an adjusted base rent of 1070, the PDF one of 1050. *)
Lemma breakdown_follows_the_edit_witness :
  (nth_error [sc_a; sc_b] 1 = Some sc_b
   /\ sc_id sc_b_edited = sc_id sc_b)
  /\ (App_floorplanRows (Fm := fraction_formatting)
        false (Some property_1) (Some analysis_1)
        [sc_a; sc_b] 1 (Some sc_b_edited)
      = Some (map (fun fp => App_floorplanTr (Fm := fraction_formatting)
                                             fp sc_b_edited)
                  (pr_floorplans property_1))
      /\ exportToPDF (Fm := fraction_formatting)
           (Some property_1) (Some analysis_1) [sc_a; sc_b] 1
         = Exported
             (map (fun fp => exportToPDF_floorplanRow
                               (Fm := fraction_formatting) fp sc_b)
                  (pr_floorplans property_1))
             (map (exportToPDF_scenarioRow (Fm := fraction_formatting))
                  [sc_a; sc_b]))
  /\ (nth_error (map (fun td => content td)
                     (App_floorplanTr (Fm := fraction_formatting)
                                      fp_example sc_b_edited)) 5
      = Some (Text "$1070/1")
      /\ nth_error (exportToPDF_floorplanRow (Fm := fraction_formatting)
                                             fp_example sc_b) 5
         = Some (Text "$1050/1")).
Proof.
  split; [split; reflexivity |].
  split; [| split; reflexivity].
  exact (breakdown_follows_the_edit
           (Fm := fraction_formatting)
           property_1 analysis_1 [sc_a; sc_b] 1 sc_b_edited sc_b
           eq_refl eq_refl).
Defined.

Lemma exported_tables_fit_their_heads_witness :
  exists floorplanData scenarioData,
    exportToPDF (Fm := sample_formatting Q)
                (Some property_1) (Some analysis_1) [sc_a; sc_b] 0
    = Exported floorplanData scenarioData
    /\ Forall (fun row => List.length row = 11%nat) floorplanData
    /\ Forall (fun row => List.length row = 8%nat) scenarioData.
Proof.
  eexists. eexists. split; [reflexivity |].
  pose proof (exported_tables_fit_their_heads
                (Fm := sample_formatting Q)
                (Some property_1) (Some analysis_1) [sc_a; sc_b] 0
                _ _ eq_refl) as (Hf & Hs & _).
  split; [exact Hf | exact Hs].
Defined.

(** +5% on the base rent, with and without 400 dollars on top: the same
    cell, adjusted base rents of 1050 and 1450. *)
Lemma comparison_row_hides_the_dollar_adjustment_witness :
  (strict_eq (base_rent_pct_adj sc_b_calculated) (lit 0) = false
   /\ base_rent_pct_adj sc_c_calculated = base_rent_pct_adj sc_b_calculated)
  /\ (nth_error (exportToPDF_scenarioRow (Fm := fraction_formatting)
                                         sc_b_calculated) 1
      = Some (Text "5/1%")
      /\ nth_error (exportToPDF_scenarioRow (Fm := fraction_formatting)
                                            sc_c_calculated) 1
         = nth_error (exportToPDF_scenarioRow (Fm := fraction_formatting)
                                              sc_b_calculated) 1
      /\ nth_error (App_sensitivityTr (Fm := fraction_formatting)
                                      sc_c_calculated) 1
         = nth_error (App_sensitivityTr (Fm := fraction_formatting)
                                        sc_b_calculated) 1)
  /\ (adjustedBase (row_of Table fp_example sc_b_calculated) == 1050
      /\ adjustedBase (row_of Table fp_example sc_c_calculated) == 1450)%Q.
Proof.
  split; [split; reflexivity |].
  split; [| split; reflexivity].
  exact (comparison_row_hides_the_dollar_adjustment
           (Fm := fraction_formatting) sc_b_calculated sc_c_calculated
           eq_refl eq_refl).
Defined.

(** Ten percent off and ten dollars off. *)
Lemma comparison_row_confuses_concession_types_witness :
  exportToPDF_scenarioRow (Fm := sample_formatting Q)
    (with_concession sc_a "percentage" 10%Q)
  = exportToPDF_scenarioRow (Fm := sample_formatting Q)
      (with_concession sc_a "dollar" 10%Q).
Proof.
  apply (comparison_row_confuses_concession_types
           (Fm := sample_formatting Q) sc_a "percentage" "dollar" 10%Q);
    discriminate.
Defined.

(** A scenario without results, one with a revenue and one whose revenue
    is NaN, in binary64. *)
Lemma chart_data_has_no_NaN_witness :
  App_chartData_data [sc_reset64; sc_with_revenue64; sc_with_NaN_revenue64]
  = [0%float; 132000%float; 0%float]
  /\ Forall (fun x => strict_eq x x = true)
            (App_chartData_data
               [sc_reset64; sc_with_revenue64; sc_with_NaN_revenue64]).
Proof.
  split; [reflexivity |].
  apply (chart_data_has_no_NaN
           [sc_reset64; sc_with_revenue64; sc_with_NaN_revenue64]).
  reflexivity.
Defined.

(** A field left empty: [parseFloat("")] is NaN. *)
Lemma edit_form_stores_no_NaN_witness :
  strict_eq PrimFloat.nan PrimFloat.nan = false
  /\ base_rent_pct_adj (onChange_base_rent_pct_adj sc_reset64 PrimFloat.nan)
     = 0%float
  /\ strict_eq
       (concession_value (onChange_concession_value sc_reset64 PrimFloat.nan))
       (concession_value (onChange_concession_value sc_reset64 PrimFloat.nan))
     = true.
Proof.
  split; [reflexivity |]. split; [reflexivity |].
  apply (edit_form_stores_no_NaN sc_reset64 PrimFloat.nan). reflexivity.
Defined.

(** The 50 dollar concession of the first worked example is switched to a
    percentage. *)
Lemma concession_type_change_witness :
  PrimFloat.is_finite
    (grossRent (row_of Table fp_example64
                  (onChange_concession_type sc_dollar_50_64 "percentage")))
  = true
  /\ strict_eq
       (concessionAmount
          (row_of Table fp_example64
             (onChange_concession_type sc_dollar_50_64 "percentage")))
       0%float
     = true
  /\ netEffective
       (row_of Table fp_example64
          (onChange_concession_type sc_dollar_50_64 "percentage"))
     = 1150%float.
Proof.
  split; [reflexivity |].
  split; [| reflexivity].
  exact (proj1 (concession_type_change_clears_the_concession
                  Table fp_example64 sc_dollar_50_64 "percentage" eq_refl)).
Defined.

Lemma reset_scenario_marks_nothing_witness :
  concession_type sc_reset64 = "none"
  /\ map (fun td => className td)
         (App_floorplanTr (Fm := sample_formatting float)
                          fp_example64 sc_reset64)
     = [ None; None; None; None; None; Some ""; None; Some "";
         Some "gross-rent"; Some ""; Some "net-effective" ].
Proof.
  split; [reflexivity |].
  apply (reset_scenario_marks_nothing
           (Fm := sample_formatting float) fp_example64 sc_reset64);
    reflexivity.
Defined.

End ComponentSamples.
